(** * AQI engine and coordinate validator of [polclisat8.py]

    A shallow embedding of the numeric core of the India map / AQI tool:
    the breakpoint tables, [sub_index], [aqi_color], [is_within_india],
    the index computation of [get_air_quality] and the exception
    behaviour of the four data panels.

    Numbers.  The Python code computes on [int] and [float].  Here every
    number is an exact rational ([Q]): [/] is exact division, and the
    source's [ZeroDivisionError] on a zero divisor is written out.  Two
    rationals are compared with [==] ([Qeq]); the comparisons of the code
    ([<=], [<], [>]) are the boolean ones of [Q].  Python compares
    numbers exactly, so which band a concentration falls in is the same
    here and there; what the arithmetic of a band returns is rounded
    to binary64 there and exact here.  Not in the model: the
    [OverflowError] of an integer too large for a [float], and readings
    that are not numbers (a JSON null would raise [TypeError]).  Where a
    statement needs a number to fit a [float], [in_float_range] says so.

    Exceptions.  A Python call either returns or raises: [outcome A]. *)

From Stdlib Require Import QArith Lqa ZArith List String Bool.
From stdpp Require Import gmap strings.
Import ListNotations.

Local Open Scope string_scope.
Local Open Scope list_scope.
Local Open Scope Q_scope.

(* ================================================================= *)
(** ** Exceptions *)

Inductive exn : Type :=
| IndexError                      (* [breakpoints[0]] on an empty list *)
| ZeroDivisionError               (* [x / 0] *)
| KeyError (key : string)         (* [d[key]] on a missing key *)
| Foreign (is_Exception : bool) (text : string).
    (* raised by a collaborator (requests, openmeteo, folium, pandas);
       [is_Exception] tells whether its class derives from [Exception]
       (as opposed to [BaseException] only), [text] is [str(e)] *)

Inductive outcome (A : Type) : Type :=
| Return (a : A)
| Raise (e : exn).
Arguments Return {A} a.
Arguments Raise {A} e.

(** Sequencing: the first exception raised aborts what follows.  The
    notation [x ← m; k] is stdpp's, through the [MBind] instance. *)
#[export] Instance outcome_bind : MBind outcome :=
  fun A B (k : A -> outcome B) (m : outcome A) =>
    match m with
    | Return a => k a
    | Raise e => Raise e
    end.

(** Whether [except Exception] catches the exception: the built-in
    errors above derive from [Exception]. *)
Definition is_Exception (e : exn) : bool :=
  match e with
  | Foreign b _ => b
  | _ => true
  end.

(** [try: body  except Exception as e: handler(e)] *)
Definition try_except {A : Type} (body : outcome A) (handler : exn -> outcome A)
  : outcome A :=
  match body with
  | Return a => Return a
  | Raise e => if is_Exception e then handler e else Raise e
  end.

(** The call returned a number equal to [v]. *)
Definition returns (r : outcome Q) (v : Q) : Prop :=
  match r with
  | Return x => x == v
  | Raise _ => False
  end.

(* ================================================================= *)
(** ** Numbers *)

(** Python's [a < b] on numbers. *)
Definition Qlt_bool (a b : Q) : bool := negb (Qle_bool b a).

(** Python's chained comparison [lo <= x <= hi]. *)
Definition between (lo x hi : Q) : bool := Qle_bool lo x && Qle_bool x hi.

(** Python's true division. *)
Definition py_div (a b : Q) : outcome Q :=
  if Qeq_bool b 0 then Raise ZeroDivisionError else Return (a / b).

(** Python's [max(x, y1, ..., yn)]: the first of the largest arguments. *)
Definition py_max (x : Q) (ys : list Q) : Q :=
  fold_left (fun m y => if Qlt_bool m y then y else m) ys x.

(* ================================================================= *)
(** ** Tables *)

(** One row [(C_low, C_high, I_low, I_high)] of a breakpoint table. *)
Record breakpoint : Type := Breakpoint {
  C_low : Q;
  C_high : Q;
  I_low : Q;
  I_high : Q
}.

Definition bp (cl ch il ih : Q) : breakpoint := Breakpoint cl ch il ih.

Definition pm2_5_table : list breakpoint :=
  [ bp 0 30 0 50; bp 30 60 51 100; bp 60 90 101 200;
    bp 90 120 201 300; bp 120 250 301 400; bp 250 350 401 500 ].

Definition pm10_table : list breakpoint :=
  [ bp 0 50 0 50; bp 50 100 51 100; bp 100 250 101 200;
    bp 250 350 201 300; bp 350 430 301 400; bp 430 600 401 500 ].

Definition carbon_monoxide_table : list breakpoint :=
  [ bp 0 1 0 50; bp 1 2 51 100; bp 2 10 101 200;
    bp 10 17 201 300; bp 17 34 301 400; bp 34 50 401 500 ].

Definition nitrogen_dioxide_table : list breakpoint :=
  [ bp 0 40 0 50; bp 40 80 51 100; bp 80 180 101 200;
    bp 180 280 201 300; bp 280 400 301 400; bp 400 1000 401 500 ].

Definition sulphur_dioxide_table : list breakpoint :=
  [ bp 0 40 0 50; bp 40 80 51 100; bp 80 380 101 200;
    bp 380 800 201 300; bp 800 1600 301 400; bp 1600 2000 401 500 ].

Definition ozone_table : list breakpoint :=
  [ bp 0 50 0 50; bp 50 100 51 100; bp 100 168 101 200;
    bp 168 208 201 300; bp 208 748 301 400; bp 748 1000 401 500 ].

Definition AQI_BREAKPOINTS : gmap string (list breakpoint) :=
  <["pm2_5" := pm2_5_table]>
  (<["pm10" := pm10_table]>
  (<["carbon_monoxide" := carbon_monoxide_table]>
  (<["nitrogen_dioxide" := nitrogen_dioxide_table]>
  (<["sulphur_dioxide" := sulphur_dioxide_table]>
  (<["ozone" := ozone_table]> ∅))))).

(** One row [(low, high, label, color)] of [AQI_BANDS]. *)
Record aqi_band : Type := AqiBand {
  low : Q;
  high : Q;
  label : string;
  color : string
}.

Definition AQI_BANDS : list aqi_band :=
  [ AqiBand 0 50 "Good" "#009966";
    AqiBand 51 100 "Satisfactory" "#ffde33";
    AqiBand 101 200 "Moderate" "#ff9933";
    AqiBand 201 300 "Poor" "#cc0033";
    AqiBand 301 400 "Very Poor" "#660099";
    AqiBand 401 500 "Severe" "#7e0023" ].

(* ================================================================= *)
(** ** Helper functions *)

(** The band test [C_low <= C <= C_high] of [sub_index]. *)
Definition in_band (C : Q) (b : breakpoint) : bool :=
  between (C_low b) C (C_high b).

(** The value returned from inside the loop:
    [((I_high - I_low)/(C_high - C_low)) * (C - C_low) + I_low]. *)
Definition interpolate (C : Q) (b : breakpoint) : outcome Q :=
  slope ← py_div (I_high b - I_low b) (C_high b - C_low b);
  Return (slope * (C - C_low b) + I_low b).

(** The [for] loop of [sub_index]: [Some r] when the loop body returned
    (or raised) [r], [None] when the loop ran to its end. *)
Fixpoint sub_index_loop (C : Q) (breakpoints : list breakpoint)
  : option (outcome Q) :=
  match breakpoints with
  | [] => None
  | b :: rest =>
      if in_band C b then Some (interpolate C b)
      else sub_index_loop C rest
  end.

(** [l[0]] and [l[-1]]. *)
Definition item_first {A : Type} (l : list A) : outcome A :=
  match l with
  | [] => Raise IndexError
  | x :: _ => Return x
  end.

Definition item_last {A : Type} (l : list A) : outcome A :=
  match rev l with
  | [] => Raise IndexError
  | x :: _ => Return x
  end.

Definition sub_index (C : Q) (breakpoints : list breakpoint) : outcome Q :=
  match sub_index_loop C breakpoints with
  | Some r => r
  | None =>
      b0 ← item_first breakpoints;
      if Qlt_bool C (C_low b0) then
        b0' ← item_first breakpoints;
        Return (I_low b0')
      else
        bn ← item_last breakpoints;
        Return (I_high bn)
  end.

Definition sentinel : string * string := ("#000000", "Unknown").

(** The loop of [aqi_color] over a list of bands. *)
Fixpoint aqi_color_loop (aqi : Q) (bands : list aqi_band) : string * string :=
  match bands with
  | [] => sentinel
  | b :: rest =>
      if between (low b) aqi (high b) then (color b, label b)
      else aqi_color_loop aqi rest
  end.

Definition aqi_color (aqi : Q) : string * string :=
  aqi_color_loop aqi AQI_BANDS.

Definition is_within_india (lat lon : Q) : bool :=
  between 6.0 lat 36.0 && between 68.0 lon 98.0.

(* ================================================================= *)
(** ** The index computed by [get_air_quality] *)

(** [d[key]] on a dictionary. *)
Definition item {A : Type} (d : gmap string A) (key : string) : outcome A :=
  match d !! key with
  | Some v => Return v
  | None => Raise (KeyError key)
  end.

(** [c.get(key, 0)]. *)
Definition get0 (c : gmap string Q) (key : string) : Q :=
  default 0 (c !! key).

(** The six sub-indices, in the order in which the code computes them. *)
Record sub_indices : Type := SubIndices {
  idx_pm25 : Q; idx_pm10 : Q; idx_co : Q;
  idx_no2 : Q; idx_so2 : Q; idx_o3 : Q
}.

(** The assignments to [pm25 .. o3] and to [idx_pm25 .. idx_o3] of
    [get_air_quality], on the dictionary [c] of current values; [tables]
    is the global [AQI_BREAKPOINTS] as the call finds it. *)
Definition get_air_quality_sub_indices
    (tables : gmap string (list breakpoint)) (c : gmap string Q)
  : outcome sub_indices :=
  let pm25 := get0 c "pm2_5" in
  let pm10 := get0 c "pm10" in
  let co := get0 c "carbon_monoxide" / 1000.0 in
  let no2 := get0 c "nitrogen_dioxide" in
  let so2 := get0 c "sulphur_dioxide" in
  let o3 := get0 c "ozone" in
  i1 ← (t ← item tables "pm2_5"; sub_index pm25 t);
  i2 ← (t ← item tables "pm10"; sub_index pm10 t);
  i3 ← (t ← item tables "carbon_monoxide"; sub_index co t);
  i4 ← (t ← item tables "nitrogen_dioxide"; sub_index no2 t);
  i5 ← (t ← item tables "sulphur_dioxide"; sub_index so2 t);
  i6 ← (t ← item tables "ozone"; sub_index o3 t);
  Return (SubIndices i1 i2 i3 i4 i5 i6).

(** [aqi = max(idx_pm25, idx_pm10, idx_co, idx_no2, idx_so2, idx_o3)]. *)
Definition max_sub_index (s : sub_indices) : Q :=
  py_max (idx_pm25 s) [idx_pm10 s; idx_co s; idx_no2 s; idx_so2 s; idx_o3 s].

Definition get_air_quality_aqi
    (tables : gmap string (list breakpoint)) (c : gmap string Q) : outcome Q :=
  s ← get_air_quality_sub_indices tables c;
  Return (max_sub_index s).

(** The dictionary of current values holding the six pollutants. *)
Definition current_values (pm25 pm10 co no2 so2 o3 : Q) : gmap string Q :=
  <["pm2_5" := pm25]>
  (<["pm10" := pm10]>
  (<["carbon_monoxide" := co]>
  (<["nitrogen_dioxide" := no2]>
  (<["sulphur_dioxide" := so2]>
  (<["ozone" := o3]> ∅))))).

(* ================================================================= *)
(** ** The data panels and the map

    The HTTP clients, the response objects, pandas, folium and the
    f-string templates of the success paths are collaborators: they are
    the fields of [Collaborators].  What is embedded is the control flow
    of the four functions around them: the order of the calls and the
    [try] / [except] blocks. *)

Definition TILE_OPTIONS : list (string * string * option string) :=
  [ ("OpenStreetMap", "OpenStreetMap", None);
    ("CartoDB positron", "CartoDB positron", None) ].

Definition CUSTOM_TILES : gmap string (string * option string) := ∅.

(** What [folium.Map] is called with. *)
Record map_args : Type := MapArgs {
  location : Q * Q;
  zoom_start : Z;
  tiles : string;
  attr : option string
}.

(** What [folium.Marker] is called with: position, icon colour, popup. *)
Record marker : Type := Marker {
  position : Q * Q;
  icon_color : string;
  popup : string
}.

(** What the air-quality template is filled with. *)
Record air_panel : Type := AirPanel {
  panel_color : string;
  panel_label : string;
  panel_aqi : Q;
  panel_sub_indices : sub_indices;
  panel_current : gmap string Q
}.

Definition climate_url : string := "https://climate-api.open-meteo.com/v1/climate".
Definition satellite_url : string := "https://satellite-api.open-meteo.com/v1/archive".
Definition air_quality_url : string :=
  "https://air-quality-api.open-meteo.com/v1/air-quality".

(** The collaborators, as an interface. *)
Class Collaborators : Type := {
  (** [str(e)], as the f-strings of the handlers take it *)
  str : exn -> string;

  (** an openmeteo_requests client over a cached, retrying session,
      made from the name of the cache *)
  client : Type;
  new_client : string -> outcome client;
  response : Type;
  (** [client.weather_api(url, params)] with latitude, longitude, date *)
  weather_api :
    client -> string -> Q -> Q -> string -> outcome (list response);

  (** [resp.Daily()] and [daily.Variables(i).ValuesAsNumpy()] *)
  daily : Type;
  Daily : response -> outcome daily;
  ValuesAsNumpy : daily -> nat -> outcome (list Q);
  fmt : Q -> string;
  (** the template of the climate panel: name, date, rows *)
  climate_panel : string -> string -> string -> string;

  (** [datetime.strptime(..).date()], [date.isoformat()], the module's
      [satellite_client] and the pandas part of the satellite panel *)
  date : Type;
  strptime : string -> outcome date;
  isoformat : date -> string;
  satellite_client : client;
  satellite_panel : response -> string -> string -> outcome string;

  (** [requests.get], [resp.raise_for_status()] and
      [resp.json().get(current, {})] *)
  http_response : Type;
  requests_get : string -> Q -> Q -> outcome http_response;
  raise_for_status : http_response -> outcome unit;
  json_current : http_response -> outcome (gmap string Q);
  (** the template of the air-quality panel *)
  air_quality_panel : string -> string -> air_panel -> string;

  (** [folium.Map(..)], [Marker(..).add_to(m)], [m._repr_html_()] and
      the format [.4f] *)
  folium_map : Type;
  folium_Map : map_args -> outcome folium_map;
  add_to : marker -> folium_map -> outcome folium_map;
  repr_html : folium_map -> outcome string;
  fmt4 : Q -> string;

  (** today's date in Asia/Kolkata, as [%Y-%m-%d] *)
  today : string
}.

Section Panels.

Context {W : Collaborators}.

Definition VAR_LABELS : list (string * string) :=
  [ ("temperature_2m_max", "Temp Max (°C)");
    ("temperature_2m_mean", "Temp Mean (°C)");
    ("temperature_2m_min", "Temp Min (°C)");
    ("wind_speed_10m_mean", "Wind 10m Mean (m/s)");
    ("wind_speed_10m_max", "Wind 10m Max (m/s)");
    ("cloud_cover_mean", "Cloud Cover Mean (%)");
    ("shortwave_radiation_sum", "Shortwave Rad. Sum (MJ/m²)");
    ("relative_humidity_2m_mean", "RH Mean (%)");
    ("relative_humidity_2m_max", "RH Max (%)");
    ("relative_humidity_2m_min", "RH Min (%)");
    ("dew_point_2m_mean", "Dew Point Mean (°C)");
    ("dew_point_2m_min", "Dew Point Min (°C)");
    ("dew_point_2m_max", "Dew Point Max (°C)");
    ("precipitation_sum", "Precipitation Sum (mm)");
    ("rain_sum", "Rain Sum (mm)");
    ("snowfall_sum", "Snowfall Sum (mm)");
    ("pressure_msl_mean", "Pressure MSL Mean (hPa)");
    ("soil_moisture_0_to_10cm_mean", "Soil Moisture 0–10cm Mean (m³/m³)");
    ("et0_fao_evapotranspiration_sum", "ET₀ FAO Evapotransp. (mm)") ].

(** The loop over [enumerate(VAR_LABELS)], from index [i] on. *)
Fixpoint climate_rows (d : daily) (i : nat) (labels : list (string * string))
    (html_rows : string) : outcome string :=
  match labels with
  | [] => Return html_rows
  | (_, lbl) :: rest =>
      values ← ValuesAsNumpy d i;
      val ← match values with
            | [] => Return "-"
            | _ :: _ =>
                values' ← ValuesAsNumpy d i;
                v ← item_first values';
                Return (fmt v)
            end;
      climate_rows d (S i) rest
        (html_rows +:+ "<tr><td>" +:+ lbl +:+ "</td><td>" +:+ val +:+ "</td></tr>")
  end.

Definition get_climate_data (lat lon : Q) (location_name date_str : string)
  : outcome string :=
  climate_client ← new_client ".cache_climate";
  try_except
    (responses ← weather_api climate_client climate_url lat lon date_str;
     resp ← item_first responses;
     d ← Daily resp;
     html_rows ← climate_rows d 0 VAR_LABELS "";
     Return (climate_panel location_name date_str html_rows))
    (fun e =>
       Return ("<div style='color:red;padding:.5em;'>Climate data unavailable: "
                 +:+ str e +:+ "</div>")).

Definition get_satellite_radiation (lat lon : Q)
    (location_name date_str : string) : outcome string :=
  d ← strptime date_str;
  responses ← weather_api satellite_client satellite_url
                lat lon (isoformat d);
  resp ← item_first responses;
  satellite_panel resp location_name date_str.

Definition get_air_quality (lat lon : Q) (location_name date_str : string)
  : outcome string :=
  resp ← requests_get air_quality_url lat lon;
  _ ← raise_for_status resp;
  c ← json_current resp;
  s ← get_air_quality_sub_indices AQI_BREAKPOINTS c;
  let aqi := max_sub_index s in
  let '(col, lbl) := aqi_color aqi in
  Return (air_quality_panel location_name date_str
            (AirPanel col lbl aqi s c)).

(** [next((t for t in TILE_OPTIONS if t[0]==tiles_label), None)] *)
Definition tile_info (tiles_label : string)
  : option (string * string * option string) :=
  List.find (fun t => String.eqb (fst (fst t)) tiles_label) TILE_OPTIONS.

(** Truth value of [attr]: [None] and the empty string are false. *)
Definition truthy (a : option string) : bool :=
  match a with
  | Some s => negb (String.eqb s "")
  | None => false
  end.

Definition centroid : Q * Q := (21.146633, 79.088860).

(** The choice of [tiles, attr]: a listed tile set, a custom one,
    or the default. *)
Definition tile_choice (tiles_label : string) : string * option string :=
  match tile_info tiles_label with
  | Some t => (snd (fst t), snd t)
  | None =>
      match CUSTOM_TILES !! tiles_label with
      | Some ta => ta
      | None => ("OpenStreetMap", None)
      end
  end.

(** [map_args], after the [update] of either branch. *)
Definition make_map_args (zoom : Z) (ta : string * option string) : map_args :=
  if truthy (snd ta) then MapArgs centroid zoom (fst ta) (snd ta)
  else MapArgs centroid zoom (fst ta) None.

(** The marker of the map, when both coordinates are given. *)
Definition place_marker (lat lon : option Q) (m : folium_map)
  : outcome folium_map :=
  match lat, lon with
  | Some lat_f, Some lon_f =>
      if negb (is_within_india lat_f lon_f) then
        add_to (Marker centroid "red" "Out of India bounds") m
      else
        add_to (Marker (lat_f, lon_f) "blue"
                  ("Lat: " +:+ fmt4 lat_f +:+ ", Lon: " +:+ fmt4 lon_f)) m
  | _, _ => Return m
  end.

Definition create_india_map (lat lon : option Q) (zoom : Z)
    (tiles_label : string) : outcome string :=
  try_except
    (m ← folium_Map (make_map_args zoom (tile_choice tiles_label));
     m' ← place_marker lat lon m;
     html ← repr_html m';
     Return ("<div style='border-radius:18px;box-shadow:0 4px 18px #8882;"
               +:+ "overflow:hidden;margin:1em 0;min-height:520px;max-width:100%;'>"
               +:+ html +:+ "</div>"))
    (fun e =>
       Return ("<div style='color:red;padding:1em;'>Error generating map: "
                 +:+ str e +:+ "</div>")).

(** The callback of the coordinate fields, the caller of the three
    data panels and of the map. *)
Definition manual_update (lat lon : option Q) (zoom : Z) (tiles_label : string)
  : outcome (option Q * option Q * string * string * string) :=
  let no_marker := Return ("ℹ️ Enter valid India coords or search", "") in
  '(msg, html) ←
    match lat, lon with
    | Some la, Some lo =>
        if is_within_india la lo then
          let location_display := fmt4 la +:+ ", " +:+ fmt4 lo in
          aqi_html ← get_air_quality la lo location_display today;
          sat_html ← get_satellite_radiation la lo location_display today;
          climate_html ← get_climate_data la lo location_display today;
          Return ("✅ Marker at (" +:+ location_display +:+ ")",
                  aqi_html +:+ sat_html +:+ climate_html)
        else no_marker
    | _, _ => no_marker
    end;
  map_html ← create_india_map lat lon zoom tiles_label;
  Return (lat, lon, msg, map_html, html).

End Panels.

(* ================================================================= *)
(** ** What the specification speaks of *)

(** [C] lies inside the band, both ends inclusive. *)
Definition contains (b : breakpoint) (C : Q) : Prop :=
  C_low b <= C /\ C <= C_high b.

(** The linear interpolation within a band. *)
Definition interpolation (b : breakpoint) (C : Q) : Q :=
  ((I_high b - I_low b) / (C_high b - C_low b)) * (C - C_low b) + I_low b.

(** [b] is the first band, in table order, that contains [C]. *)
Definition first_containing (breakpoints : list breakpoint) (C : Q)
    (b : breakpoint) : Prop :=
  exists pre post,
    breakpoints = pre ++ b :: post /\
    contains b C /\
    forall b', In b' pre -> ~ contains b' C.

(** An ascending table: every band has a positive width and ends no
    later than the next one starts. *)
Fixpoint ascending (breakpoints : list breakpoint) : Prop :=
  match breakpoints with
  | [] => True
  | b :: rest =>
      C_low b < C_high b /\
      match rest with
      | [] => True
      | b' :: _ => C_high b <= C_low b'
      end /\
      ascending rest
  end.

(** The six tables of [AQI_BREAKPOINTS]. *)
Definition six_tables : list (list breakpoint) :=
  [ pm2_5_table; pm10_table; carbon_monoxide_table;
    nitrogen_dioxide_table; sulphur_dioxide_table; ozone_table ].

(** [v] is a largest element of [l]. *)
Definition is_maximum (v : Q) (l : list Q) : Prop :=
  In v l /\ forall x, In x l -> x <= v.

(** [v] lies in the index range of an AQI band. *)
Definition in_aqi_band (v : Q) (b : aqi_band) : Prop :=
  low b <= v /\ v <= high b.

(** The union [0,50] ∪ [51,100] ∪ [101,200] ∪ [201,300] ∪ [301,400] ∪ [401,500]. *)
Definition in_index_ranges (v : Q) : Prop :=
  0 <= v <= 50 \/ 51 <= v <= 100 \/ 101 <= v <= 200 \/
  201 <= v <= 300 \/ 301 <= v <= 400 \/ 401 <= v <= 500.

(** Every two consecutive rows of the table are related by [R]. *)
Fixpoint consecutive {A : Type} (R : A -> A -> Prop)
    (breakpoints : list A) : Prop :=
  match breakpoints with
  | [] => True
  | b :: rest =>
      match rest with
      | [] => True
      | b' :: _ => R b b'
      end /\ consecutive R rest
  end.

(** A contiguous table: every band ends where the next one starts. *)
Definition contiguous : list breakpoint -> Prop :=
  consecutive (fun b b' => C_high b == C_low b').

(** The index ranges step up from one band to the next. *)
Definition index_steps : list breakpoint -> Prop :=
  consecutive (fun b b' => I_high b < I_low b').

(* ================================================================= *)
(** ** Two worlds in which the upstream services fail *)

(** A world without network: every fetch and the map fail with [down]. *)
Definition down : exn := Foreign true "Connection refused".

Definition offline : Collaborators := {|
  str := fun e => match e with
                  | Foreign _ text => text
                  | KeyError key => key
                  | IndexError => "list index out of range"
                  | ZeroDivisionError => "division by zero"
                  end;
  client := unit;
  new_client := fun _ => Return tt;
  response := unit;
  weather_api := fun _ _ _ _ _ => Raise down;
  daily := unit;
  Daily := fun _ => Return tt;
  ValuesAsNumpy := fun _ _ => Return [];
  fmt := fun _ => "";
  climate_panel := fun _ _ rows => rows;
  date := string;
  strptime := fun s => Return s;
  isoformat := fun d => d;
  satellite_client := tt;
  satellite_panel := fun _ _ _ => Return "";
  http_response := unit;
  requests_get := fun _ _ _ => Raise down;
  raise_for_status := fun _ => Return tt;
  json_current := fun _ => Return ∅;
  air_quality_panel := fun _ _ _ => "";
  folium_map := unit;
  folium_Map := fun _ => Raise down;
  add_to := fun _ m => Return m;
  repr_html := fun _ => Return "";
  fmt4 := fun _ => "";
  today := "2025-06-01"
|}.

(** A world whose air-quality server answers with an error status. *)
Definition server_error : exn := Foreign true "500 Server Error".

Definition bad_status : Collaborators := {|
  str := @str offline;
  client := unit;
  new_client := fun _ => Return tt;
  response := unit;
  weather_api := fun _ _ _ _ _ => Return [];
  daily := unit;
  Daily := fun _ => Return tt;
  ValuesAsNumpy := fun _ _ => Return [];
  fmt := fun _ => "";
  climate_panel := fun _ _ rows => rows;
  date := string;
  strptime := fun s => Return s;
  isoformat := fun d => d;
  satellite_client := tt;
  satellite_panel := fun _ _ _ => Return "";
  http_response := unit;
  requests_get := fun _ _ _ => Return tt;
  raise_for_status := fun _ => Raise server_error;
  json_current := fun _ => Return ∅;
  air_quality_panel := fun _ _ _ => "";
  folium_map := unit;
  folium_Map := fun _ => Return tt;
  add_to := fun _ m => Return m;
  repr_html := fun _ => Return "";
  fmt4 := fun _ => "";
  today := "2025-06-01"
|}.

(* ================================================================= *)
(** ** Regular tables *)

(** The band read the other way round: index range first. *)
Definition transpose (b : breakpoint) : breakpoint :=
  Breakpoint (I_low b) (I_high b) (C_low b) (C_high b).

(** A regular table: ascending and contiguous in the concentrations,
    and ascending in the index ranges as well. *)
Definition regular (breakpoints : list breakpoint) : Prop :=
  ascending breakpoints /\ contiguous breakpoints /\
  ascending (map transpose breakpoints).

(** The largest finite binary64 number, (2 - 2^-52) * 2^1023. *)
Definition float_max : Q := inject_Z (2 ^ 1024 - 2 ^ 971).

(** A number that [float(x)] can hold: an [int] of this size converts
    without [OverflowError]. *)
Definition in_float_range (x : Q) : Prop :=
  - float_max <= x /\ x <= float_max.

(** The keys of the six pollutants in the dictionary of current values. *)
Definition pollutant_keys : list string :=
  [ "pm2_5"; "pm10"; "carbon_monoxide";
    "nitrogen_dioxide"; "sulphur_dioxide"; "ozone" ].

(* ================================================================= *)
(** ** Geocoding and the search callback *)

(** One candidate of the geocoding answer.  A field is [None] when the
    key is missing from the JSON object. *)
Record geo_result : Type := GeoResult {
  res_name : option string;
  res_country_code : option string;
  res_admin1 : option string;
  res_admin2 : option string;
  res_admin3 : option string;
  res_admin4 : option string;
  res_latitude : option Q;
  res_longitude : option Q
}.

(** The dictionary that [search_location_open_meteo] returns. *)
Record found_location : Type := FoundLocation {
  loc_lat : Q;
  loc_lon : Q;
  loc_admin : string;
  loc_display : string
}.

Definition geocoding_url : string :=
  "https://geocoding-api.open-meteo.com/v1/search".

(** What the search needs beyond [Collaborators]: [str.strip], [len],
    the geocoding request and the decoding of its results
    ([resp.json().get(results, [])]). *)
Class Geocoding (W : Collaborators) : Type := {
  strip : string -> string;
  len : string -> nat;
  geocode_get : string -> string -> outcome http_response;
  json_results : http_response -> outcome (list geo_result)
}.

(** [res[key]] on a JSON object. *)
Definition field {A : Type} (v : option A) (key : string) : outcome A :=
  match v with
  | Some x => Return x
  | None => Raise (KeyError key)
  end.

(** [res.get(country_code) == IN] *)
Definition is_indian (res : geo_result) : bool :=
  match res_country_code res with
  | Some code => String.eqb code "IN"
  | None => false
  end.

(** [filter(None, [..])]: the fields that are present and not empty. *)
Fixpoint filter_None (l : list (option string)) : list string :=
  match l with
  | [] => []
  | Some s :: rest =>
      if String.eqb s "" then filter_None rest else s :: filter_None rest
  | None :: rest => filter_None rest
  end.

(** [admin = , .join(filter(None, [admin1, admin2, admin3, admin4]))] *)
Definition admin_of (res : geo_result) : string :=
  String.concat ", "
    (filter_None [res_admin1 res; res_admin2 res; res_admin3 res; res_admin4 res]).

Section Search.

Context {W : Collaborators} {G : Geocoding W}.

(** The dictionary built from an Indian candidate. *)
Definition location_of (res : geo_result) : outcome found_location :=
  let admin := admin_of res in
  lat ← field (res_latitude res) "latitude";
  lon ← field (res_longitude res) "longitude";
  name ← field (res_name res) "name";
  lat' ← field (res_latitude res) "latitude";
  lon' ← field (res_longitude res) "longitude";
  Return (FoundLocation lat lon admin
            (name +:+ " (" +:+ fmt4 lat' +:+ ", " +:+ fmt4 lon' +:+ ")")).

(** The loop over the candidates. *)
Fixpoint first_indian (results : list geo_result)
  : outcome (option found_location) :=
  match results with
  | [] => Return None
  | res :: rest =>
      if is_indian res then
        loc ← location_of res;
        Return (Some loc)
      else first_indian rest
  end.

Definition search_location_open_meteo (location_name : string)
  : outcome (option found_location) :=
  resp ← geocode_get geocoding_url location_name;
  _ ← raise_for_status resp;
  results ← json_results resp;
  first_indian results.

(** [not name or len(name.strip()) < 3] *)
Definition too_short (name : string) : bool :=
  String.eqb name "" || Nat.ltb (len (strip name)) 3.

(** The callback of the search box.  The two coordinate fields are set
    to the coordinates found, or cleared. *)
Definition search_and_set_location (name : string) (zoom : Z)
    (tiles_label : string)
  : outcome (option Q * option Q * string * string * string) :=
  if too_short name then
    map_html ← create_india_map None None zoom tiles_label;
    Return (None, None, "❌ Enter ≥3 chars", map_html, "")
  else
    r ← search_location_open_meteo (strip name);
    match r with
    | None =>
        map_html ← create_india_map None None zoom tiles_label;
        Return (None, None, "❌ Not found/India", map_html, "")
    | Some loc =>
        let msg := "✅ <b>Found:</b> " +:+ loc_display loc
                     +:+ "<br><i>" +:+ loc_admin loc +:+ "</i>" in
        aqi_html ← get_air_quality (loc_lat loc) (loc_lon loc)
                     (loc_display loc) today;
        sat_html ← get_satellite_radiation (loc_lat loc) (loc_lon loc)
                     (loc_display loc) today;
        map_html ← create_india_map (Some (loc_lat loc)) (Some (loc_lon loc))
                     zoom tiles_label;
        Return (Some (loc_lat loc), Some (loc_lon loc), msg, map_html,
                aqi_html +:+ sat_html)
    end.

End Search.

(* ================================================================= *)
(** ** The cells and rows of the climate table *)

(** [values[0] if values.size > 0 else -], formatted *)
Definition climate_cell {W : Collaborators} (values : list Q) : string :=
  match values with
  | [] => "-"
  | v :: _ => fmt v
  end.

Definition climate_row {W : Collaborators} (lbl : string) (values : list Q)
  : string :=
  "<tr><td>" +:+ lbl +:+ "</td><td>" +:+ climate_cell values +:+ "</td></tr>".

(** The rows of the labels against the arrays, one after the other. *)
Fixpoint climate_table {W : Collaborators} (labels : list (string * string))
    (arrays : list (list Q)) : string :=
  match labels, arrays with
  | (_, lbl) :: labels', values :: arrays' =>
      climate_row lbl values +:+ climate_table labels' arrays'
  | _, _ => ""
  end.

(* ================================================================= *)
(** ** A world in which every service answers *)

Definition online : Collaborators := {|
  str := @str offline;
  client := string;
  new_client := fun cache => Return cache;
  response := list (list Q);
  weather_api := fun _ _ _ _ _ => Return [repeat [27.5; 28] 18 ++ [[]]];
  daily := list (list Q);
  Daily := fun resp => Return resp;
  ValuesAsNumpy := fun d i =>
    match d !! i with
    | Some values => Return values
    | None => Raise (Foreign true "index out of range")
    end;
  fmt := fun _ => "27.5";
  climate_panel := fun name day rows => name +:+ " " +:+ day +:+ rows;
  date := string;
  strptime := fun s => Return s;
  isoformat := fun d => d;
  satellite_client := ".cache_sat";
  satellite_panel := fun _ name day => Return ("sun " +:+ name +:+ " " +:+ day);
  http_response := gmap string Q * list geo_result;
  requests_get := fun _ _ _ => Return (current_values 30 50 1000 40 40 250, []);
  raise_for_status := fun _ => Return tt;
  json_current := fun resp => Return (fst resp);
  air_quality_panel := fun name day p => panel_label p +:+ " " +:+ name;
  folium_map := list marker;
  folium_Map := fun _ => Return [];
  add_to := fun mk m => Return (mk :: m);
  repr_html := fun m => Return (String.concat "," (icon_color <$> m));
  fmt4 := fun _ => "0.0000";
  today := "2025-06-01"
|}.

(** The message of [manual_update] when it fetches nothing. *)
Definition info_message : string := "ℹ️ Enter valid India coords or search".

(** The answering world with another [weather_api], given the URL, and
    another outcome of the construction of a client. *)
Definition online_with (api : string -> outcome (list (list (list Q))))
    (cache : string -> outcome string) : Collaborators :=
  @Build_Collaborators
    (@str online) string cache (list (list Q))
    (fun _ url _ _ _ => api url)
    (@daily online) (@Daily online) (@ValuesAsNumpy online) (@fmt online)
    (@climate_panel online) (@date online) (@strptime online)
    (@isoformat online) (@satellite_client online) (@satellite_panel online)
    (@http_response online) (@requests_get online) (@raise_for_status online)
    (@json_current online) (@air_quality_panel online)
    (@folium_map online) (@folium_Map online) (@add_to online)
    (@repr_html online) (@fmt4 online) (@today online).

(** Only two of the 19 variables are there. *)
Definition truncated : Collaborators :=
  online_with (fun _ => Return [[[27.5]; []]]) (fun cache => Return cache).

(** The answer holds no response at all. *)
Definition empty_answer : Collaborators :=
  online_with (fun _ => Return []) (fun cache => Return cache).

(** The cache file of the climate client cannot be opened. *)
Definition locked : exn := Foreign true "database is locked".

Definition no_cache : Collaborators :=
  online_with (fun _ => Return [repeat [27.5; 28] 18 ++ [[]]])
              (fun _ => Raise locked).

(** The climate service is down, the satellite service answers. *)
Definition climate_down : Collaborators :=
  online_with (fun url => if String.eqb url climate_url then Raise down
                          else Return [[]])
              (fun cache => Return cache).

(** The satellite service is down, the climate service answers. *)
Definition satellite_down : Collaborators :=
  online_with (fun url => if String.eqb url satellite_url then Raise down
                          else Return [repeat [27.5; 28] 18 ++ [[]]])
              (fun cache => Return cache).

Definition nagpur : geo_result :=
  GeoResult (Some "Nagpur") (Some "IN") (Some "Maharashtra") None (Some "")
            (Some "Nagpur Urban") (Some 21.15) (Some 79.09).

Definition springfield : geo_result :=
  GeoResult (Some "Springfield") (Some "US") (Some "Illinois") None None None
            (Some 39.8) (Some (-89.6)).

(** An Indian candidate far east of the box of [is_within_india]. *)
Definition port_blair_east : geo_result :=
  GeoResult (Some "Campbell Bay") (Some "IN") (Some "Andaman and Nicobar")
            None None None (Some 7) (Some 99).

Definition geocoder (results : list geo_result) : Geocoding online := {|
  strip := fun s => s;
  len := String.length;
  geocode_get := fun _ _ =>
    (Return ((∅ : gmap string Q), results) : outcome (@http_response online));
  json_results := fun resp : @http_response online => Return (snd resp)
|}.

(** A geocoder that is down. *)
Definition geocoder_down : Geocoding online := {|
  strip := fun s => s;
  len := String.length;
  geocode_get := fun _ _ => Raise down;
  json_results := fun resp : @http_response online => Return (snd resp)
|}.

(* ================================================================= *)
(** ** Basic facts *)

Lemma Qlt_bool_iff (a b : Q) : Qlt_bool a b = true <-> a < b.
Proof.
  unfold Qlt_bool. rewrite negb_true_iff.
  split.
  - intros H. apply Qnot_le_lt. intros Hle.
    apply Qle_bool_iff in Hle. congruence.
  - intros H. destruct (Qle_bool b a) eqn:E; [|reflexivity].
    apply Qle_bool_iff in E. lra.
Qed.

Lemma between_iff (lo x hi : Q) : between lo x hi = true <-> lo <= x /\ x <= hi.
Proof.
  unfold between. rewrite andb_true_iff, !Qle_bool_iff. tauto.
Qed.

Lemma between_false_iff (lo x hi : Q) :
  between lo x hi = false <-> ~ (lo <= x /\ x <= hi).
Proof.
  rewrite <- between_iff. destruct (between lo x hi); split; intros; congruence.
Qed.

Lemma in_band_iff (C : Q) (b : breakpoint) : in_band C b = true <-> contains b C.
Proof. apply between_iff. Qed.

Lemma in_band_false_iff (C : Q) (b : breakpoint) :
  in_band C b = false <-> ~ contains b C.
Proof. apply between_false_iff. Qed.

Lemma py_div_nonzero (a b : Q) : ~ b == 0 -> py_div a b = Return (a / b).
Proof.
  intros H. unfold py_div. destruct (Qeq_bool b 0) eqn:E; [|reflexivity].
  apply Qeq_bool_iff in E. contradiction.
Qed.

Lemma interpolate_width (C : Q) (b : breakpoint) :
  C_low b < C_high b -> interpolate C b = Return (interpolation b C).
Proof.
  intros H. unfold interpolate, interpolation.
  rewrite py_div_nonzero by lra. reflexivity.
Qed.

(** The loop returns from the first band that contains [C]. *)
Lemma sub_index_loop_first (C : Q) (pre : list breakpoint) (b : breakpoint)
    (post : list breakpoint) :
  (forall b', In b' pre -> ~ contains b' C) ->
  contains b C ->
  sub_index_loop C (pre ++ b :: post) = Some (interpolate C b).
Proof.
  intros Hpre Hb. induction pre as [|p pre IH]; simpl.
  - apply in_band_iff in Hb. rewrite Hb. reflexivity.
  - assert (Hp : in_band C p = false).
    { apply in_band_false_iff, Hpre. left. reflexivity. }
    rewrite Hp. apply IH. intros b' Hin. apply Hpre. right. exact Hin.
Qed.

(** The loop runs to its end exactly when no band contains [C]. *)
Lemma sub_index_loop_none (C : Q) (breakpoints : list breakpoint) :
  sub_index_loop C breakpoints = None <->
  forall b, In b breakpoints -> ~ contains b C.
Proof.
  induction breakpoints as [|b rest IH]; simpl.
  - split; [intros _ b []|reflexivity].
  - destruct (in_band C b) eqn:E.
    + split; [discriminate|].
      intros H. apply in_band_iff in E. exfalso. apply (H b); [left; reflexivity|exact E].
    + rewrite IH. apply in_band_false_iff in E. split.
      * intros H b' [<-|Hin]; [exact E|apply H, Hin].
      * intros H b' Hin. apply H. right. exact Hin.
Qed.

Lemma first_containing_exists (breakpoints : list breakpoint) (C : Q) :
  (exists b, In b breakpoints /\ contains b C) ->
  exists b, first_containing breakpoints C b.
Proof.
  induction breakpoints as [|b rest IH]; intros [x [Hin Hx]].
  - destruct Hin.
  - destruct (in_band C b) eqn:E.
    + exists b, [], rest. apply in_band_iff in E.
      split; [reflexivity|]. split; [exact E|]. intros b' [].
    + apply in_band_false_iff in E.
      destruct Hin as [->|Hin]; [contradiction|].
      destruct IH as [b1 [pre [post [Heq [Hc Hpre]]]]]; [exists x; auto|].
      exists b1, (b :: pre), post. split; [simpl; congruence|].
      split; [exact Hc|].
      intros b' [<-|Hin']; [exact E|apply Hpre, Hin'].
Qed.

(* ================================================================= *)
(** ** Ascending tables *)

Lemma ascending_tail (b : breakpoint) (rest : list breakpoint) :
  ascending (b :: rest) -> ascending rest.
Proof. simpl. tauto. Qed.

Lemma ascending_app_r (pre l : list breakpoint) :
  ascending (pre ++ l) -> ascending l.
Proof.
  induction pre as [|p pre IH]; [trivial|].
  intros H. apply IH. exact (ascending_tail _ _ H).
Qed.

Lemma ascending_width (l : list breakpoint) (b : breakpoint) :
  ascending l -> In b l -> C_low b < C_high b.
Proof.
  induction l as [|x l IH]; intros Hasc Hin; [destruct Hin|].
  destruct Hin as [<-|Hin].
  - simpl in Hasc. tauto.
  - apply IH; [exact (ascending_tail _ _ Hasc)|exact Hin].
Qed.

(** Every later band starts at or after the end of an earlier one. *)
Lemma ascending_later (b : breakpoint) (rest : list breakpoint) (b' : breakpoint) :
  ascending (b :: rest) -> In b' rest -> C_high b <= C_low b'.
Proof.
  revert b. induction rest as [|x rest IH]; intros b Hasc Hin; [destruct Hin|].
  destruct Hasc as [Hb [Hbx Hrest]].
  destruct Hin as [<-|Hin]; [exact Hbx|].
  assert (Hx : C_low x < C_high x) by (simpl in Hrest; tauto).
  specialize (IH x Hrest Hin). lra.
Qed.

Lemma ascending_earlier (pre : list breakpoint) (b : breakpoint)
    (post : list breakpoint) (b' : breakpoint) :
  ascending (pre ++ b :: post) -> In b' pre -> C_high b' <= C_low b.
Proof.
  induction pre as [|p pre IH]; intros Hasc Hin; [destruct Hin|].
  destruct Hin as [->|Hin].
  - apply (ascending_later b' (pre ++ b :: post)); [exact Hasc|].
    apply in_or_app. right. left. reflexivity.
  - apply IH; [exact (ascending_tail _ _ Hasc)|exact Hin].
Qed.

(** In an ascending table a concentration strictly above the start of a
    band lies in no earlier band. *)
Lemma ascending_earlier_miss (pre : list breakpoint) (b : breakpoint)
    (post : list breakpoint) (C : Q) :
  ascending (pre ++ b :: post) -> C_low b < C ->
  forall b', In b' pre -> ~ contains b' C.
Proof.
  intros Hasc HC b' Hin [_ Hhi].
  pose proof (ascending_earlier pre b post b' Hasc Hin). lra.
Qed.

Lemma ascending_below_first (b0 : breakpoint) (rest : list breakpoint) (C : Q) :
  ascending (b0 :: rest) -> C < C_low b0 ->
  forall b, In b (b0 :: rest) -> ~ contains b C.
Proof.
  intros Hasc HC b Hin [Hlo _].
  destruct Hin as [<-|Hin]; [lra|].
  pose proof (ascending_later b0 rest b Hasc Hin).
  assert (C_low b0 < C_high b0) by (simpl in Hasc; tauto). lra.
Qed.

Lemma ascending_above_last (init : list breakpoint) (bn : breakpoint) (C : Q) :
  ascending (init ++ [bn]) -> C_high bn < C ->
  forall b, In b (init ++ [bn]) -> ~ contains b C.
Proof.
  intros Hasc HC b Hin [_ Hhi].
  apply in_app_or in Hin. destruct Hin as [Hin|[<-|[]]]; [|lra].
  pose proof (ascending_earlier init bn [] b Hasc Hin).
  assert (C_low bn < C_high bn).
  { apply (ascending_width (init ++ [bn])); [exact Hasc|].
    apply in_or_app. right. left. reflexivity. }
  lra.
Qed.

(* ================================================================= *)
(** ** [sub_index] *)

Lemma item_last_snoc {A : Type} (init : list A) (x : A) :
  item_last (init ++ [x]) = Return x.
Proof. unfold item_last. rewrite rev_app_distr. reflexivity. Qed.

(** What [sub_index] does after the loop has run to its end. *)
Lemma sub_index_no_band (C : Q) (b0 : breakpoint) (rest : list breakpoint) :
  (forall b, In b (b0 :: rest) -> ~ contains b C) ->
  sub_index C (b0 :: rest) =
    if Qlt_bool C (C_low b0) then Return (I_low b0)
    else bn ← item_last (b0 :: rest); Return (I_high bn).
Proof.
  intros H. apply sub_index_loop_none in H.
  unfold sub_index. rewrite H. reflexivity.
Qed.

Lemma sub_index_in_first_band (breakpoints : list breakpoint) (C : Q)
    (b : breakpoint) :
  first_containing breakpoints C b -> C_low b < C_high b ->
  sub_index C breakpoints = Return (interpolation b C).
Proof.
  intros [pre [post [-> [Hb Hpre]]]] Hw.
  unfold sub_index. rewrite (sub_index_loop_first C pre b post Hpre Hb).
  apply interpolate_width, Hw.
Qed.

(** C1. For every breakpoint table and every concentration inside some
    band (both ends inclusive), [sub_index] returns the linear
    interpolation [((I_high - I_low) / (C_high - C_low)) * (C - C_low) + I_low]
    of the first band, in table order, that contains the concentration
    (a band of positive width: on a band of width zero the division
    raises); such a first band exists whenever some band contains the
    concentration; and in an ascending table a concentration at the
    boundary shared by two consecutive bands is resolved by the earlier
    band. *)
Theorem sub_index_interpolates_first_band :
  (forall (breakpoints : list breakpoint) (C : Q) (b : breakpoint),
      first_containing breakpoints C b -> C_low b < C_high b ->
      sub_index C breakpoints = Return (interpolation b C))
  /\ (forall (breakpoints : list breakpoint) (C : Q),
      (exists b, In b breakpoints /\ contains b C) ->
      exists b, first_containing breakpoints C b)
  /\ (forall (pre : list breakpoint) (b1 b2 : breakpoint)
        (post : list breakpoint) (C : Q),
      ascending (pre ++ b1 :: b2 :: post) ->
      C == C_high b1 -> C == C_low b2 ->
      sub_index C (pre ++ b1 :: b2 :: post) = Return (interpolation b1 C)).
Proof.
  split; [exact sub_index_in_first_band|].
  split; [exact first_containing_exists|].
  intros pre b1 b2 post C Hasc H1 H2.
  assert (Hw : C_low b1 < C_high b1).
  { apply (ascending_width _ b1 Hasc).
    apply in_or_app. right. left. reflexivity. }
  apply sub_index_in_first_band; [|exact Hw].
  exists pre, (b2 :: post). split; [reflexivity|]. split.
  - split; lra.
  - apply (ascending_earlier_miss pre b1 (b2 :: post) C Hasc). lra.
Qed.

(** At 30 the PM2.5 table has two candidate bands, (0,30,0,50) and
    (30,60,51,100): the first one is taken and the index is 50. *)
Lemma sub_index_interpolates_first_band_witness :
  ascending pm2_5_table /\
  first_containing pm2_5_table 30 (bp 0 30 0 50) /\
  sub_index 30 pm2_5_table = Return (interpolation (bp 0 30 0 50) 30) /\
  sub_index 30 ([] ++ bp 0 30 0 50 :: bp 30 60 51 100 :: skipn 2 pm2_5_table)
    = Return (interpolation (bp 0 30 0 50) 30) /\
  interpolation (bp 0 30 0 50) 30 == 50.
Proof.
  assert (Hasc : ascending pm2_5_table).
  { simpl. repeat split; reflexivity || (intro H; discriminate H). }
  assert (Hfirst : first_containing pm2_5_table 30 (bp 0 30 0 50)).
  { exists [], (skipn 1 pm2_5_table). split; [reflexivity|].
    split; [split; intro H; discriminate H|intros b' []]. }
  split; [exact Hasc|]. split; [exact Hfirst|]. split.
  - apply (proj1 sub_index_interpolates_first_band pm2_5_table 30 (bp 0 30 0 50)).
    + exact Hfirst.
    + reflexivity.
  - split; [|reflexivity].
    apply (proj2 (proj2 sub_index_interpolates_first_band)
             [] (bp 0 30 0 50) (bp 30 60 51 100) (skipn 2 pm2_5_table) 30).
    + exact Hasc.
    + reflexivity.
    + reflexivity.
Defined.

Lemma sub_index_floor (b0 : breakpoint) (rest : list breakpoint) (C : Q) :
  (forall b, In b (b0 :: rest) -> ~ contains b C) ->
  C < C_low b0 ->
  sub_index C (b0 :: rest) = Return (I_low b0).
Proof.
  intros Hno HC. rewrite (sub_index_no_band C b0 rest Hno).
  apply Qlt_bool_iff in HC. rewrite HC. reflexivity.
Qed.

Lemma sub_index_ceiling (b0 : breakpoint) (rest init : list breakpoint)
    (bn : breakpoint) (C : Q) :
  b0 :: rest = init ++ [bn] ->
  (forall b, In b (b0 :: rest) -> ~ contains b C) ->
  ~ C < C_low b0 ->
  sub_index C (b0 :: rest) = Return (I_high bn).
Proof.
  intros Heq Hno HC. rewrite (sub_index_no_band C b0 rest Hno).
  destruct (Qlt_bool C (C_low b0)) eqn:E.
  - apply Qlt_bool_iff in E. contradiction.
  - rewrite Heq, item_last_snoc. reflexivity.
Qed.

(** C2. [sub_index] saturates.  On a non-empty table, a concentration
    that matches no band gets the first band's [I_low] when it is below
    the first band's lower bound and the last band's [I_high] otherwise;
    in an ascending table every concentration below the first lower
    bound gets the first [I_low] and every concentration above the last
    upper bound gets the last [I_high]; so a concentration that matches
    no band of a non-empty table never raises.  PM2.5 at -5 gives 0 and
    at 1000 gives 500. *)
Theorem sub_index_saturates :
  (forall (b0 : breakpoint) (rest : list breakpoint) (C : Q),
      (forall b, In b (b0 :: rest) -> ~ contains b C) ->
      C < C_low b0 ->
      sub_index C (b0 :: rest) = Return (I_low b0))
  /\ (forall (b0 : breakpoint) (rest init : list breakpoint)
        (bn : breakpoint) (C : Q),
      b0 :: rest = init ++ [bn] ->
      (forall b, In b (b0 :: rest) -> ~ contains b C) ->
      ~ C < C_low b0 ->
      sub_index C (b0 :: rest) = Return (I_high bn))
  /\ (forall (b0 : breakpoint) (rest : list breakpoint) (C : Q),
      ascending (b0 :: rest) -> C < C_low b0 ->
      sub_index C (b0 :: rest) = Return (I_low b0))
  /\ (forall (init : list breakpoint) (bn : breakpoint) (C : Q),
      ascending (init ++ [bn]) -> C_high bn < C ->
      sub_index C (init ++ [bn]) = Return (I_high bn))
  /\ (forall (breakpoints : list breakpoint) (C : Q),
      breakpoints <> [] ->
      (forall b, In b breakpoints -> ~ contains b C) ->
      exists v, sub_index C breakpoints = Return v)
  /\ sub_index (-5) pm2_5_table = Return 0
  /\ sub_index 1000 pm2_5_table = Return 500.
Proof.
  split; [exact sub_index_floor|].
  split; [exact sub_index_ceiling|].
  split.
  { intros b0 rest C Hasc HC. apply sub_index_floor; [|exact HC].
    apply ascending_below_first; assumption. }
  split.
  { intros init bn C Hasc HC.
    pose proof (ascending_above_last init bn C Hasc HC) as Hno.
    destruct (init ++ [bn]) as [|b0 rest] eqn:E.
    { destruct init; discriminate E. }
    apply (sub_index_ceiling b0 rest init bn C); [symmetry; exact E|exact Hno|].
    assert (Hw0 : C_low b0 < C_high b0).
    { apply (ascending_width (b0 :: rest)); [exact Hasc|left; reflexivity]. }
    assert (Hb0 : C_high b0 <= C_high bn).
    { destruct init as [|x init]; simpl in E.
      - injection E as <- _. lra.
      - injection E as -> Hrest.
        assert (Hbn : In bn rest).
        { rewrite <- Hrest. apply in_or_app. right. left. reflexivity. }
        pose proof (ascending_later b0 rest bn Hasc Hbn).
        pose proof (ascending_width (b0 :: rest) bn Hasc (or_intror Hbn)). lra. }
    lra. }
  split.
  { intros breakpoints C Hne Hno.
    destruct breakpoints as [|b0 rest]; [congruence|].
    destruct (Qlt_le_dec C (C_low b0)) as [Hlt|Hge].
    - exists (I_low b0). apply sub_index_floor; assumption.
    - destruct (exists_last Hne) as [init [bn Heq]].
      exists (I_high bn). apply (sub_index_ceiling b0 rest init bn C); [exact Heq|exact Hno|lra]. }
  split; reflexivity.
Qed.

(** The ozone table at -1 (floor) and at 1200 (ceiling). *)
Lemma sub_index_saturates_witness :
  ascending ozone_table /\
  sub_index (-1) ozone_table = Return 0 /\
  sub_index 1200 ozone_table = Return 500.
Proof.
  assert (Hasc : ascending ozone_table).
  { simpl. repeat split; reflexivity || (intro H; discriminate H). }
  split; [exact Hasc|]. split.
  - apply (proj1 (proj2 (proj2 sub_index_saturates))
             (bp 0 50 0 50) (skipn 1 ozone_table) (-1)).
    + exact Hasc.
    + reflexivity.
  - apply (proj1 (proj2 (proj2 (proj2 sub_index_saturates)))
             (firstn 5 ozone_table) (bp 748 1000 401 500) 1200).
    + exact Hasc.
    + reflexivity.
Defined.

(* ================================================================= *)
(** ** The interpolation at the ends and inside a band *)

Lemma interpolation_at_high (b : breakpoint) (C : Q) :
  C_low b < C_high b -> C == C_high b -> interpolation b C == I_high b.
Proof.
  intros Hw HC. unfold interpolation. rewrite HC. field. lra.
Qed.

Lemma interpolation_at_low (b : breakpoint) (C : Q) :
  C_low b < C_high b -> C == C_low b -> interpolation b C == I_low b.
Proof.
  intros Hw HC. unfold interpolation. rewrite HC. field. lra.
Qed.

Lemma interpolation_at_midpoint (b : breakpoint) :
  C_low b < C_high b ->
  interpolation b ((C_low b + C_high b) / 2) == (I_low b + I_high b) / 2.
Proof.
  intros Hw. unfold interpolation. field. lra.
Qed.

(** Inside a band of positive width whose index range is not reversed,
    the interpolation stays within the index range of the band. *)
Lemma interpolation_bounds (b : breakpoint) (C : Q) :
  C_low b < C_high b -> I_low b <= I_high b -> contains b C ->
  I_low b <= interpolation b C /\ interpolation b C <= I_high b.
Proof.
  intros Hw Hi [Hlo Hhi]. unfold interpolation.
  set (d := C_high b - C_low b).
  assert (Hd : 0 < d) by (unfold d; lra).
  assert (Hs : 0 <= (I_high b - I_low b) / d).
  { apply Qle_shift_div_l; [exact Hd|]. lra. }
  split.
  - assert (0 <= (I_high b - I_low b) / d * (C - C_low b)).
    { apply Qmult_le_0_compat; [exact Hs|lra]. }
    lra.
  - assert (Hm : (I_high b - I_low b) / d * (C - C_low b)
                 <= (I_high b - I_low b) / d * d).
    { rewrite !(Qmult_comm ((I_high b - I_low b) / d)).
      apply Qmult_le_compat_r; [unfold d; lra|exact Hs]. }
    assert (He : (I_high b - I_low b) / d * d == I_high b - I_low b).
    { field. lra. }
    lra.
Qed.

Lemma consecutive_app {A : Type} (R : A -> A -> Prop)
    (pre : list A) (p b : A) (post : list A) :
  consecutive R (pre ++ p :: b :: post) -> R p b.
Proof.
  induction pre as [|x pre IH]; simpl.
  - tauto.
  - intros [_ H]. apply IH, H.
Qed.

Lemma six_tables_ascending (t : list breakpoint) :
  In t six_tables -> ascending t.
Proof.
  intros Hin. repeat (destruct Hin as [<-|Hin]); try destruct Hin;
    simpl; repeat split; reflexivity || (intro H; discriminate H).
Qed.

Lemma six_tables_contiguous (t : list breakpoint) :
  In t six_tables -> contiguous t.
Proof.
  intros Hin. repeat (destruct Hin as [<-|Hin]); try destruct Hin;
    simpl; repeat split; reflexivity.
Qed.

Lemma six_tables_index_steps (t : list breakpoint) :
  In t six_tables -> index_steps t.
Proof.
  intros Hin. repeat (destruct Hin as [<-|Hin]); try destruct Hin;
    simpl; repeat split; reflexivity.
Qed.

Lemma sub_index_at_high (pre : list breakpoint) (b : breakpoint)
    (post : list breakpoint) :
  ascending (pre ++ b :: post) ->
  returns (sub_index (C_high b) (pre ++ b :: post)) (I_high b).
Proof.
  intros Hasc.
  assert (Hw : C_low b < C_high b).
  { apply (ascending_width _ b Hasc), in_or_app. right. left. reflexivity. }
  rewrite (sub_index_in_first_band _ _ b); [|exists pre, post|exact Hw].
  - simpl. apply interpolation_at_high; [exact Hw|reflexivity].
  - split; [reflexivity|]. split; [split; lra|].
    apply (ascending_earlier_miss pre b post _ Hasc Hw).
Qed.

Lemma midpoint_inside (a b : Q) :
  a < b -> a < (a + b) / 2 /\ (a + b) / 2 < b.
Proof.
  intros H.
  assert (E : (a + b) / 2 == (1 # 2) * (a + b)) by field.
  rewrite E. split; lra.
Qed.

Lemma sub_index_at_midpoint (pre : list breakpoint) (b : breakpoint)
    (post : list breakpoint) :
  ascending (pre ++ b :: post) ->
  returns (sub_index ((C_low b + C_high b) / 2) (pre ++ b :: post))
          ((I_low b + I_high b) / 2).
Proof.
  intros Hasc.
  assert (Hw : C_low b < C_high b).
  { apply (ascending_width _ b Hasc), in_or_app. right. left. reflexivity. }
  rewrite (sub_index_in_first_band _ _ b); [|exists pre, post|exact Hw].
  - simpl. apply interpolation_at_midpoint, Hw.
  - destruct (midpoint_inside _ _ Hw) as [Hlo Hhi].
    split; [reflexivity|]. split; [split; lra|].
    apply (ascending_earlier_miss pre b post _ Hasc Hlo).
Qed.

Lemma sub_index_at_first_low (b : breakpoint) (post : list breakpoint) :
  ascending (b :: post) ->
  returns (sub_index (C_low b) (b :: post)) (I_low b).
Proof.
  intros Hasc.
  assert (Hw : C_low b < C_high b) by (simpl in Hasc; tauto).
  rewrite (sub_index_in_first_band _ _ b); [|exists [], post|exact Hw].
  - simpl. apply interpolation_at_low; [exact Hw|reflexivity].
  - split; [reflexivity|]. split; [split; lra|intros b' []].
Qed.

(** The lower bound of a later band is the upper bound of the band
    before it, and it is that earlier band which the loop meets first. *)
Lemma sub_index_at_shared_low (pre : list breakpoint) (p b : breakpoint)
    (post : list breakpoint) :
  ascending (pre ++ p :: b :: post) -> C_high p == C_low b ->
  returns (sub_index (C_low b) (pre ++ p :: b :: post)) (I_high p).
Proof.
  intros Hasc Hpb.
  assert (Hw : C_low p < C_high p).
  { apply (ascending_width _ p Hasc), in_or_app. right. left. reflexivity. }
  rewrite (sub_index_in_first_band _ _ p); [|exists pre, (b :: post)|exact Hw].
  - simpl. apply interpolation_at_high; [exact Hw|symmetry; exact Hpb].
  - split; [reflexivity|]. split; [split; lra|].
    apply (ascending_earlier_miss pre p (b :: post) _ Hasc). lra.
Qed.

(** C4, as the code has it.  For each of the six pollutant tables and
    every band of it: the band's upper-bound concentration yields the
    band's [I_high]; the band's midpoint yields the mean of [I_low] and
    [I_high]; the lower-bound concentration of the first band yields its
    [I_low]; the lower-bound concentration of every later band is the
    upper bound of the band before it and yields that earlier band's
    [I_high], which is below the later band's [I_low]. *)
Theorem sub_index_at_band_ends :
  forall t : list breakpoint, In t six_tables ->
    (forall pre b post, t = pre ++ b :: post ->
       returns (sub_index (C_high b) t) (I_high b) /\
       returns (sub_index ((C_low b + C_high b) / 2) t)
               ((I_low b + I_high b) / 2))
    /\ (forall b post, t = b :: post ->
       returns (sub_index (C_low b) t) (I_low b))
    /\ (forall pre p b post, t = pre ++ p :: b :: post ->
       returns (sub_index (C_low b) t) (I_high p) /\ I_high p < I_low b).
Proof.
  intros t Ht.
  pose proof (six_tables_ascending t Ht) as Hasc.
  pose proof (six_tables_contiguous t Ht) as Hcont.
  split; [|split].
  - intros pre b post ->. split.
    + apply sub_index_at_high, Hasc.
    + apply sub_index_at_midpoint, Hasc.
  - intros b post ->. apply sub_index_at_first_low, Hasc.
  - intros pre p b post Heq. split.
    + rewrite Heq in *. apply sub_index_at_shared_low; [exact Hasc|].
      apply (consecutive_app _ pre p b post Hcont).
    + rewrite Heq in Ht.
      apply (consecutive_app _ pre p b post (six_tables_index_steps _ Ht)).
Qed.

(** The second PM2.5 band, (30,60,51,100), and the first one. *)
Lemma sub_index_at_band_ends_witness :
  In pm2_5_table six_tables /\
  returns (sub_index 60 pm2_5_table) 100 /\
  returns (sub_index ((30 + 60) / 2) pm2_5_table) ((51 + 100) / 2) /\
  returns (sub_index 0 pm2_5_table) 0 /\
  returns (sub_index 30 pm2_5_table) 50.
Proof.
  assert (Hin : In pm2_5_table six_tables) by (left; reflexivity).
  destruct (sub_index_at_band_ends pm2_5_table Hin) as [Hends [Hfirst Hlater]].
  split; [exact Hin|].
  destruct (Hends [bp 0 30 0 50] (bp 30 60 51 100) (skipn 2 pm2_5_table) eq_refl)
    as [Hhigh Hmid].
  split; [exact Hhigh|]. split; [exact Hmid|]. split.
  - exact (Hfirst (bp 0 30 0 50) (skipn 1 pm2_5_table) eq_refl).
  - exact (proj1 (Hlater [] (bp 0 30 0 50) (bp 30 60 51 100)
                    (skipn 2 pm2_5_table) eq_refl)).
Defined.

(** C4 as stated fails: the lower bound 30 of the PM2.5 band
    (30,60,51,100) yields 50, the [I_high] of the band before it, and
    not the band's own [I_low] 51. *)
Lemma sub_index_at_band_ends_counterexample :
  ~ (forall t : list breakpoint, In t six_tables ->
     forall b : breakpoint, In b t ->
       returns (sub_index (C_low b) t) (I_low b) /\
       returns (sub_index (C_high b) t) (I_high b) /\
       returns (sub_index ((C_low b + C_high b) / 2) t)
               ((I_low b + I_high b) / 2)).
Proof.
  intros H.
  destruct (H pm2_5_table (or_introl eq_refl)
              (bp 30 60 51 100) (or_intror (or_introl eq_refl))) as [Hlow _].
  vm_compute in Hlow. discriminate Hlow.
Qed.

(* ================================================================= *)
(** ** [aqi_color] *)

(** The loop returns the pair of the first band that contains the value. *)
Lemma aqi_color_loop_first (aqi : Q) (pre : list aqi_band) (b : aqi_band)
    (post : list aqi_band) :
  (forall b', In b' pre -> ~ in_aqi_band aqi b') ->
  in_aqi_band aqi b ->
  aqi_color_loop aqi (pre ++ b :: post) = (color b, label b).
Proof.
  intros Hpre Hb. induction pre as [|p pre IH]; simpl.
  - apply between_iff in Hb. rewrite Hb. reflexivity.
  - assert (Hp : between (low p) aqi (high p) = false).
    { apply between_false_iff, Hpre. left. reflexivity. }
    rewrite Hp. apply IH. intros b' Hin. apply Hpre. right. exact Hin.
Qed.

Lemma aqi_color_loop_none (aqi : Q) (bands : list aqi_band) :
  (forall b, In b bands -> ~ in_aqi_band aqi b) ->
  aqi_color_loop aqi bands = sentinel.
Proof.
  induction bands as [|b rest IH]; intros H; simpl; [reflexivity|].
  assert (Hb : between (low b) aqi (high b) = false).
  { apply between_false_iff, H. left. reflexivity. }
  rewrite Hb. apply IH. intros b' Hin. apply H. right. exact Hin.
Qed.

(** The loop returns the pair of some band that contains the value, or
    the sentinel when there is none. *)
Lemma aqi_color_loop_cases (aqi : Q) (bands : list aqi_band) :
  (exists b, In b bands /\ in_aqi_band aqi b /\
             aqi_color_loop aqi bands = (color b, label b))
  \/ ((forall b, In b bands -> ~ in_aqi_band aqi b) /\
      aqi_color_loop aqi bands = sentinel).
Proof.
  induction bands as [|b rest IH]; simpl.
  - right. split; [intros b []|reflexivity].
  - destruct (between (low b) aqi (high b)) eqn:E.
    + left. exists b. apply between_iff in E. auto.
    + apply between_false_iff in E. destruct IH as [[b' [Hin [Hb' Heq]]]|[Hno Heq]].
      * left. exists b'. auto.
      * right. split; [|exact Heq].
        intros b' [<-|Hin]; [exact E|apply Hno, Hin].
Qed.

(** No band of [AQI_BANDS] carries the pair of the sentinel. *)
Lemma AQI_BANDS_not_sentinel (b : aqi_band) :
  In b AQI_BANDS -> (color b, label b) <> sentinel.
Proof.
  intros Hin. repeat (destruct Hin as [<-|Hin]); try destruct Hin; discriminate.
Qed.

Lemma aqi_color_sentinel_iff (aqi : Q) :
  aqi_color aqi = sentinel <-> forall b, In b AQI_BANDS -> ~ in_aqi_band aqi b.
Proof.
  split.
  - intros Heq. destruct (aqi_color_loop_cases aqi AQI_BANDS)
      as [[b [Hin [_ Hb]]]|[Hno _]]; [|exact Hno].
    exfalso. apply (AQI_BANDS_not_sentinel b Hin).
    unfold aqi_color in Heq. congruence.
  - apply aqi_color_loop_none.
Qed.

Lemma in_index_ranges_iff (v : Q) :
  in_index_ranges v <-> exists b, In b AQI_BANDS /\ in_aqi_band v b.
Proof.
  unfold in_index_ranges, in_aqi_band. split.
  - intros H.
    destruct H as [H|[H|[H|[H|[H|H]]]]].
    + exists (AqiBand 0 50 "Good" "#009966"). simpl. tauto.
    + exists (AqiBand 51 100 "Satisfactory" "#ffde33"). simpl. tauto.
    + exists (AqiBand 101 200 "Moderate" "#ff9933"). simpl. tauto.
    + exists (AqiBand 201 300 "Poor" "#cc0033"). simpl. tauto.
    + exists (AqiBand 301 400 "Very Poor" "#660099"). simpl. tauto.
    + exists (AqiBand 401 500 "Severe" "#7e0023"). simpl. tauto.
  - intros [b [Hin Hb]].
    repeat (destruct Hin as [<-|Hin]); try destruct Hin; simpl in Hb; tauto.
Qed.

Lemma aqi_color_not_sentinel_iff (aqi : Q) :
  aqi_color aqi <> sentinel <-> in_index_ranges aqi.
Proof.
  rewrite in_index_ranges_iff, aqi_color_sentinel_iff. split.
  - intros H.
    destruct (aqi_color_loop_cases aqi AQI_BANDS)
      as [[b [Hin [Hb _]]]|[Hno _]]; [exists b; auto|contradiction].
  - intros [b [Hin Hb]] Hno. exact (Hno b Hin Hb).
Qed.

(** C5 as stated fails: the value 50.5 lies in [0, 500] and in no band,
    and [aqi_color] returns the sentinel for it. *)
Lemma aqi_color_sentinel_counterexample :
  ~ (forall v : Q, aqi_color v = sentinel -> v < 0 \/ 500 < v).
Proof.
  intros H. destruct (H 50.5 eq_refl) as [H1|H1]; vm_compute in H1; discriminate H1.
Qed.

(** C5, as the code has it.  The six AQI bands are ascending and
    non-overlapping, start at 0 and end at 500, and each band starts 1
    above the end of the band before it.  [aqi_color] returns the
    sentinel exactly when its argument is below 0, above 500, or
    strictly between the end of a band and the start of the next one
    (50..51, 100..101, 200..201, 300..301, 400..401); for every integer
    in [0, 500] a band matches and the pair returned is not the
    sentinel. *)
Theorem aqi_color_sentinel_exactly_off_bands :
  length AQI_BANDS = 6%nat
  /\ (forall b, In b AQI_BANDS -> low b < high b)
  /\ consecutive (fun b b' : aqi_band => low b' == high b + 1) AQI_BANDS
  /\ (low <$> head AQI_BANDS) = Some 0
  /\ (high <$> last AQI_BANDS) = Some 500
  /\ (forall v : Q,
        aqi_color v = sentinel <->
        (v < 0 \/ 500 < v \/ (50 < v /\ v < 51) \/ (100 < v /\ v < 101) \/
         (200 < v /\ v < 201) \/ (300 < v /\ v < 301) \/ (400 < v /\ v < 401)))
  /\ (forall z : Z, (0 <= z <= 500)%Z -> aqi_color (inject_Z z) <> sentinel).
Proof.
  split; [reflexivity|]. split.
  { intros b Hin. repeat (destruct Hin as [<-|Hin]); try destruct Hin; reflexivity. }
  split; [simpl; repeat split; reflexivity|].
  split; [reflexivity|]. split; [reflexivity|]. split.
  - intros v. split.
    + intros Hs. destruct (Qlt_le_dec v 0) as [H0|H0]; [tauto|].
      destruct (Qlt_le_dec 500 v) as [H5|H5]; [tauto|].
      assert (Hn : ~ in_index_ranges v).
      { intros Hr. apply aqi_color_not_sentinel_iff in Hr. contradiction. }
      unfold in_index_ranges in Hn.
      destruct (Qlt_le_dec 50 v); [|exfalso; apply Hn; lra].
      destruct (Qlt_le_dec v 51); [lra|].
      destruct (Qlt_le_dec 100 v); [|exfalso; apply Hn; lra].
      destruct (Qlt_le_dec v 101); [lra|].
      destruct (Qlt_le_dec 200 v); [|exfalso; apply Hn; lra].
      destruct (Qlt_le_dec v 201); [lra|].
      destruct (Qlt_le_dec 300 v); [|exfalso; apply Hn; lra].
      destruct (Qlt_le_dec v 301); [lra|].
      destruct (Qlt_le_dec 400 v); [|exfalso; apply Hn; lra].
      destruct (Qlt_le_dec v 401); [lra|].
      exfalso. apply Hn. lra.
    + intros H. destruct (decide (aqi_color v = sentinel)) as [Heq|Hne]; [exact Heq|].
      apply aqi_color_not_sentinel_iff in Hne. unfold in_index_ranges in Hne. lra.
  - intros z Hz. apply aqi_color_not_sentinel_iff. unfold in_index_ranges.
    assert (Hq : forall a : Z, (a <= z)%Z -> inject_Z a <= inject_Z z)
      by (intros a Ha; rewrite <- Zle_Qle; exact Ha).
    assert (Hq' : forall a : Z, (z <= a)%Z -> inject_Z z <= inject_Z a)
      by (intros a Ha; rewrite <- Zle_Qle; exact Ha).
    destruct (Z_le_gt_dec z 50); [left; split; [apply (Hq 0%Z)|apply (Hq' 50%Z)]; lia|].
    destruct (Z_le_gt_dec z 100); [right; left; split; [apply (Hq 51%Z)|apply (Hq' 100%Z)]; lia|].
    destruct (Z_le_gt_dec z 200); [right; right; left; split; [apply (Hq 101%Z)|apply (Hq' 200%Z)]; lia|].
    destruct (Z_le_gt_dec z 300); [right; right; right; left; split; [apply (Hq 201%Z)|apply (Hq' 300%Z)]; lia|].
    destruct (Z_le_gt_dec z 400); [do 4 right; left; split; [apply (Hq 301%Z)|apply (Hq' 400%Z)]; lia|].
    do 5 right; split; [apply (Hq 401%Z)|apply (Hq' 500%Z)]; lia.
Qed.

(** 100.5 falls between "Satisfactory" and "Moderate"; 100 does not. *)
Lemma aqi_color_sentinel_exactly_off_bands_witness :
  (100 < 100.5 /\ 100.5 < 101) /\
  aqi_color 100.5 = sentinel /\
  (0 <= 100 <= 500)%Z /\
  aqi_color (inject_Z 100) <> sentinel.
Proof.
  destruct aqi_color_sentinel_exactly_off_bands
    as [_ [_ [_ [_ [_ [Hiff Hint]]]]]].
  assert (Hgap : 100 < 100.5 /\ 100.5 < 101) by (split; reflexivity).
  assert (Hz : (0 <= 100 <= 500)%Z) by lia.
  split; [exact Hgap|]. split.
  - apply (proj2 (Hiff 100.5)). right. right. right. left. exact Hgap.
  - split; [exact Hz|]. exact (Hint 100%Z Hz).
Defined.

(** C6. [aqi_color] scans the six bands in table order, which is the
    ascending one, and returns the (color, label) pair of the first band
    whose range [low, high] contains the value, both ends inclusive;
    0 gives ("#009966", "Good"), 500 gives ("#7e0023", "Severe") and 75
    gives ("#ffde33", "Satisfactory"). *)
Theorem aqi_color_first_matching_band :
  (forall (v : Q) (pre : list aqi_band) (b : aqi_band) (post : list aqi_band),
      AQI_BANDS = pre ++ b :: post ->
      (forall b', In b' pre -> ~ in_aqi_band v b') ->
      in_aqi_band v b ->
      aqi_color v = (color b, label b))
  /\ length AQI_BANDS = 6%nat
  /\ consecutive (fun b b' : aqi_band => high b < low b') AQI_BANDS
  /\ aqi_color 0 = ("#009966", "Good")
  /\ aqi_color 500 = ("#7e0023", "Severe")
  /\ aqi_color 75 = ("#ffde33", "Satisfactory").
Proof.
  split.
  { intros v pre b post Heq Hpre Hb. unfold aqi_color. rewrite Heq.
    apply aqi_color_loop_first; assumption. }
  split; [reflexivity|].
  split; [simpl; repeat split; reflexivity|].
  repeat split; reflexivity.
Qed.

(** 150 is met by the third band, after two bands that miss it. *)
Lemma aqi_color_first_matching_band_witness :
  in_aqi_band 150 (AqiBand 101 200 "Moderate" "#ff9933") /\
  aqi_color 150 = ("#ff9933", "Moderate").
Proof.
  assert (Hb : in_aqi_band 150 (AqiBand 101 200 "Moderate" "#ff9933")).
  { split; intro H; discriminate H. }
  split; [exact Hb|].
  apply (proj1 aqi_color_first_matching_band 150
           (firstn 2 AQI_BANDS) (AqiBand 101 200 "Moderate" "#ff9933")
           (skipn 3 AQI_BANDS)).
  - reflexivity.
  - intros b' Hin [Hlo Hhi].
    destruct Hin as [<-|[<-|[]]]; apply Hhi; reflexivity.
  - exact Hb.
Defined.

(* ================================================================= *)
(** ** [is_within_india] *)

(** C7. For every pair (lat, lon), [is_within_india] returns true if
    and only if 6.0 <= lat <= 36.0 and 68.0 <= lon <= 98.0, the four
    edges included; (21, 79), (6, 68) and (36, 98) give true, (5.9, 79)
    and (37, 79) give false. *)
Theorem is_within_india_iff :
  (forall lat lon : Q,
      is_within_india lat lon = true <->
      (6.0 <= lat /\ lat <= 36.0) /\ (68.0 <= lon /\ lon <= 98.0))
  /\ is_within_india 21.0 79.0 = true
  /\ is_within_india 6.0 68.0 = true
  /\ is_within_india 36.0 98.0 = true
  /\ is_within_india 5.9 79.0 = false
  /\ is_within_india 37.0 79.0 = false.
Proof.
  split.
  - intros lat lon. unfold is_within_india.
    rewrite andb_true_iff, !between_iff. reflexivity.
  - repeat split; reflexivity.
Qed.

(** The north-east corner of the box, and a point east of it. *)
Lemma is_within_india_iff_witness :
  is_within_india 36 98 = true /\
  ~ ((6.0 <= 36 /\ 36 <= 36.0) /\ (68.0 <= 98.5 /\ 98.5 <= 98.0)) /\
  is_within_india 36 98.5 = false.
Proof.
  destruct is_within_india_iff as [Hiff _].
  split.
  - apply (proj2 (Hiff 36 98)). repeat split; intro H; discriminate H.
  - assert (Hout : ~ ((6.0 <= 36 /\ 36 <= 36.0) /\ (68.0 <= 98.5 /\ 98.5 <= 98.0))).
    { intros [_ [_ H]]. apply H. reflexivity. }
    split; [exact Hout|].
    destruct (is_within_india 36 98.5) eqn:E; [|reflexivity].
    exfalso. apply Hout. apply (proj1 (Hiff 36 98.5)). exact E.
Defined.

(* ================================================================= *)
(** ** The range of [sub_index] *)

Lemma sub_index_loop_some (C : Q) (breakpoints : list breakpoint)
    (r : outcome Q) :
  sub_index_loop C breakpoints = Some r ->
  exists b, first_containing breakpoints C b /\ r = interpolate C b.
Proof.
  induction breakpoints as [|x rest IH]; simpl; [discriminate|].
  destruct (in_band C x) eqn:E.
  - intros [= <-]. exists x. split; [|reflexivity].
    exists [], rest. apply in_band_iff in E.
    split; [reflexivity|]. split; [exact E|intros b' []].
  - intros H. destruct (IH H) as [b [[pre [post [Heq [Hb Hpre]]]] Hr]].
    exists b. split; [|exact Hr].
    exists (x :: pre), post. split; [simpl; congruence|]. split; [exact Hb|].
    apply in_band_false_iff in E.
    intros b' [<-|Hin]; [exact E|apply Hpre, Hin].
Qed.

Lemma first_containing_In (breakpoints : list breakpoint) (C : Q)
    (b : breakpoint) :
  first_containing breakpoints C b -> In b breakpoints /\ contains b C.
Proof.
  intros [pre [post [-> [Hb _]]]]. split; [|exact Hb].
  apply in_or_app. right. left. reflexivity.
Qed.

(** On a non-empty table of bands of positive width whose index ranges
    are not reversed, [sub_index] returns, whatever the concentration, a
    value within the index range of one of the bands. *)
Lemma sub_index_within_some_band (breakpoints : list breakpoint) (C : Q) :
  breakpoints <> [] ->
  (forall b, In b breakpoints -> C_low b < C_high b /\ I_low b <= I_high b) ->
  exists v b,
    sub_index C breakpoints = Return v /\
    In b breakpoints /\ I_low b <= v /\ v <= I_high b.
Proof.
  intros Hne Hwf.
  destruct (sub_index_loop C breakpoints) as [r|] eqn:E.
  - destruct (sub_index_loop_some C breakpoints r E) as [b [Hfirst ->]].
    destruct (first_containing_In _ _ _ Hfirst) as [Hin Hb].
    destruct (Hwf b Hin) as [Hw Hi].
    exists (interpolation b C), b.
    split; [apply sub_index_in_first_band; assumption|].
    split; [exact Hin|]. apply interpolation_bounds; assumption.
  - pose proof (proj1 (sub_index_loop_none C breakpoints) E) as Hno.
    destruct breakpoints as [|b0 rest]; [congruence|].
    destruct (Qlt_le_dec C (C_low b0)) as [Hlt|Hge].
    + exists (I_low b0), b0.
      split; [apply sub_index_floor; assumption|].
      split; [left; reflexivity|].
      destruct (Hwf b0 (or_introl eq_refl)). lra.
    + destruct (exists_last Hne) as [init [bn Heq]].
      assert (Hin : In bn (b0 :: rest)).
      { rewrite Heq. apply in_or_app. right. left. reflexivity. }
      exists (I_high bn), bn.
      split; [apply (sub_index_ceiling b0 rest init bn C); [exact Heq|exact Hno|lra]|].
      split; [exact Hin|].
      destruct (Hwf bn Hin). lra.
Qed.

(** The index range of every band of the six tables is one of the six
    AQI ranges. *)
Lemma six_tables_bands (t : list breakpoint) (b : breakpoint) :
  In t six_tables -> In b t ->
  (C_low b < C_high b /\ I_low b <= I_high b) /\
  forall v, I_low b <= v -> v <= I_high b -> in_index_ranges v.
Proof.
  intros Ht Hb.
  repeat (destruct Ht as [<-|Ht]); try destruct Ht;
    repeat (destruct Hb as [<-|Hb]); try destruct Hb;
    (split; [split; [reflexivity|intro H; discriminate H]|]);
    intros v Hlo Hhi; unfold in_index_ranges; simpl in Hlo, Hhi; lra.
Qed.

Lemma in_index_ranges_0_500 (v : Q) : in_index_ranges v -> 0 <= v /\ v <= 500.
Proof. unfold in_index_ranges. lra. Qed.

Lemma sub_index_six_tables (t : list breakpoint) (C : Q) :
  In t six_tables ->
  exists v, sub_index C t = Return v /\ in_index_ranges v.
Proof.
  intros Ht.
  destruct (sub_index_within_some_band t C) as [v [b [Hv [Hb [Hlo Hhi]]]]].
  - repeat (destruct Ht as [<-|Ht]); try destruct Ht; discriminate.
  - intros b Hb. apply (six_tables_bands t b Ht Hb).
  - exists v. split; [exact Hv|].
    apply (proj2 (six_tables_bands t b Ht Hb)); assumption.
Qed.

(** [max] returns one of its arguments, and none of them exceeds it. *)
Lemma py_max_In (x : Q) (ys : list Q) : In (py_max x ys) (x :: ys).
Proof.
  unfold py_max. revert x. induction ys as [|y ys IH]; intros x; simpl.
  - left. reflexivity.
  - destruct (IH (if Qlt_bool x y then y else x)) as [H|H].
    + destruct (Qlt_bool x y); rewrite <- H; auto.
    + right. right. exact H.
Qed.

Lemma py_max_ge_init (x : Q) (ys : list Q) : x <= py_max x ys.
Proof.
  unfold py_max. revert x. induction ys as [|y ys IH]; intros x; simpl.
  - lra.
  - specialize (IH (if Qlt_bool x y then y else x)).
    destruct (Qlt_bool x y) eqn:E; [|exact IH].
    apply Qlt_bool_iff in E. lra.
Qed.

Lemma py_max_ge (x : Q) (ys : list Q) (y : Q) :
  In y (x :: ys) -> y <= py_max x ys.
Proof.
  revert x. induction ys as [|z ys IH]; intros x Hin.
  - destruct Hin as [<-|[]]. apply py_max_ge_init.
  - change (py_max x (z :: ys)) with (py_max (if Qlt_bool x z then z else x) ys).
    destruct Hin as [<-|[<-|Hin]].
    + pose proof (py_max_ge_init (if Qlt_bool x z then z else x) ys) as H.
      destruct (Qlt_bool x z) eqn:E; [|exact H].
      apply Qlt_bool_iff in E. lra.
    + pose proof (py_max_ge_init (if Qlt_bool x z then z else x) ys) as H.
      destruct (Qlt_bool x z) eqn:E; [exact H|].
      assert (~ x < z) by (rewrite <- Qlt_bool_iff; congruence). lra.
    + apply IH. right. exact Hin.
Qed.

Lemma py_max_is_maximum (x : Q) (ys : list Q) : is_maximum (py_max x ys) (x :: ys).
Proof. split; [apply py_max_In|apply py_max_ge]. Qed.

(** C10. For each of the six pollutant tables and every concentration,
    negative and arbitrarily large ones included, [sub_index] returns a
    value in [0,50] ∪ [51,100] ∪ [101,200] ∪ [201,300] ∪ [301,400] ∪
    [401,500], hence within [0, 500]; [aqi_color] of such a value, and of
    the maximum of any non-empty collection of such values, is never the
    sentinel. *)
Theorem sub_index_within_index_ranges :
  (forall (t : list breakpoint) (C : Q), In t six_tables ->
     exists v, sub_index C t = Return v /\
               in_index_ranges v /\ (0 <= v /\ v <= 500) /\
               aqi_color v <> sentinel)
  /\ (forall (v0 : Q) (vs : list Q),
        (forall v, In v (v0 :: vs) ->
           exists t C, In t six_tables /\ sub_index C t = Return v) ->
        aqi_color (py_max v0 vs) <> sentinel).
Proof.
  split.
  - intros t C Ht. destruct (sub_index_six_tables t C Ht) as [v [Hv Hr]].
    exists v. split; [exact Hv|]. split; [exact Hr|].
    split; [apply in_index_ranges_0_500, Hr|].
    apply aqi_color_not_sentinel_iff, Hr.
  - intros v0 vs Hall.
    destruct (Hall _ (py_max_In v0 vs)) as [t [C [Ht Hv]]].
    destruct (sub_index_six_tables t C Ht) as [v [Hv' Hr]].
    rewrite Hv in Hv'. injection Hv' as ->.
    apply aqi_color_not_sentinel_iff, Hr.
Qed.

(** Sulphur dioxide at -3 and at 5000, and the larger of the two indices. *)
Lemma sub_index_within_index_ranges_witness :
  In sulphur_dioxide_table six_tables /\
  (exists v, sub_index (-3) sulphur_dioxide_table = Return v /\
             in_index_ranges v /\ (0 <= v /\ v <= 500) /\
             aqi_color v <> sentinel) /\
  aqi_color (py_max 0 [500]) <> sentinel.
Proof.
  assert (Hin : In sulphur_dioxide_table six_tables).
  { right. right. right. right. left. reflexivity. }
  split; [exact Hin|]. split.
  - exact (proj1 sub_index_within_index_ranges sulphur_dioxide_table (-3) Hin).
  - apply (proj2 sub_index_within_index_ranges 0 [500]).
    intros v [<-|[<-|[]]].
    + exists sulphur_dioxide_table, (-3). split; [exact Hin|reflexivity].
    + exists sulphur_dioxide_table, 5000. split; [exact Hin|reflexivity].
Defined.

(* ================================================================= *)
(** ** The composite index *)

Lemma AQI_BREAKPOINTS_items :
  item AQI_BREAKPOINTS "pm2_5" = Return pm2_5_table /\
  item AQI_BREAKPOINTS "pm10" = Return pm10_table /\
  item AQI_BREAKPOINTS "carbon_monoxide" = Return carbon_monoxide_table /\
  item AQI_BREAKPOINTS "nitrogen_dioxide" = Return nitrogen_dioxide_table /\
  item AQI_BREAKPOINTS "sulphur_dioxide" = Return sulphur_dioxide_table /\
  item AQI_BREAKPOINTS "ozone" = Return ozone_table.
Proof. repeat split; vm_compute; reflexivity. Qed.

(** With the tables of the module, the six sub-indices are always
    computed: no lookup and no [sub_index] call raises. *)
Lemma get_air_quality_sub_indices_returns (c : gmap string Q) :
  exists s,
    get_air_quality_sub_indices AQI_BREAKPOINTS c = Return s /\
    sub_index (get0 c "pm2_5") pm2_5_table = Return (idx_pm25 s) /\
    sub_index (get0 c "pm10") pm10_table = Return (idx_pm10 s) /\
    sub_index (get0 c "carbon_monoxide" / 1000.0) carbon_monoxide_table
      = Return (idx_co s) /\
    sub_index (get0 c "nitrogen_dioxide") nitrogen_dioxide_table
      = Return (idx_no2 s) /\
    sub_index (get0 c "sulphur_dioxide") sulphur_dioxide_table
      = Return (idx_so2 s) /\
    sub_index (get0 c "ozone") ozone_table = Return (idx_o3 s).
Proof.
  destruct AQI_BREAKPOINTS_items as [T1 [T2 [T3 [T4 [T5 T6]]]]].
  destruct (sub_index_six_tables pm2_5_table (get0 c "pm2_5"))
    as [i1 [H1 _]]; [simpl; tauto|].
  destruct (sub_index_six_tables pm10_table (get0 c "pm10"))
    as [i2 [H2 _]]; [simpl; tauto|].
  destruct (sub_index_six_tables carbon_monoxide_table
              (get0 c "carbon_monoxide" / 1000.0))
    as [i3 [H3 _]]; [simpl; tauto|].
  destruct (sub_index_six_tables nitrogen_dioxide_table
              (get0 c "nitrogen_dioxide"))
    as [i4 [H4 _]]; [simpl; tauto|].
  destruct (sub_index_six_tables sulphur_dioxide_table
              (get0 c "sulphur_dioxide"))
    as [i5 [H5 _]]; [simpl; tauto|].
  destruct (sub_index_six_tables ozone_table (get0 c "ozone"))
    as [i6 [H6 _]]; [simpl; tauto|].
  exists (SubIndices i1 i2 i3 i4 i5 i6).
  unfold get_air_quality_sub_indices.
  rewrite T1, T2, T3, T4, T5, T6. cbn.
  rewrite H1, H2, H3, H4, H5, H6. cbn.
  repeat split; reflexivity.
Qed.

(** C3. The composite AQI divides the raw CO reading by 1000, computes
    [sub_index] for PM2.5, PM10, CO, NO2, SO2 and O3, each against its
    own table, and returns the maximum of the six sub-indices; for
    PM2.5 = 30, PM10 = 50, raw CO = 1000, NO2 = 40, SO2 = 40, O3 = 50 the
    result is 50. *)
Theorem get_air_quality_aqi_is_maximum :
  (forall c : gmap string Q,
     exists i1 i2 i3 i4 i5 i6 aqi,
       sub_index (get0 c "pm2_5") pm2_5_table = Return i1 /\
       sub_index (get0 c "pm10") pm10_table = Return i2 /\
       sub_index (get0 c "carbon_monoxide" / 1000.0) carbon_monoxide_table
         = Return i3 /\
       sub_index (get0 c "nitrogen_dioxide") nitrogen_dioxide_table = Return i4 /\
       sub_index (get0 c "sulphur_dioxide") sulphur_dioxide_table = Return i5 /\
       sub_index (get0 c "ozone") ozone_table = Return i6 /\
       get_air_quality_aqi AQI_BREAKPOINTS c = Return aqi /\
       is_maximum aqi [i1; i2; i3; i4; i5; i6])
  /\ (forall pm25 pm10 co no2 so2 o3 : Q,
        let c := current_values pm25 pm10 co no2 so2 o3 in
        get0 c "pm2_5" = pm25 /\ get0 c "pm10" = pm10 /\
        get0 c "carbon_monoxide" = co /\ get0 c "nitrogen_dioxide" = no2 /\
        get0 c "sulphur_dioxide" = so2 /\ get0 c "ozone" = o3)
  /\ returns (get_air_quality_aqi AQI_BREAKPOINTS
                (current_values 30 50 1000 40 40 50)) 50.
Proof.
  split; [|split].
  - intros c.
    destruct (get_air_quality_sub_indices_returns c)
      as [s [Hs [H1 [H2 [H3 [H4 [H5 H6]]]]]]].
    exists (idx_pm25 s), (idx_pm10 s), (idx_co s),
           (idx_no2 s), (idx_so2 s), (idx_o3 s), (max_sub_index s).
    repeat (split; [assumption|]).
    split.
    + unfold get_air_quality_aqi. rewrite Hs. reflexivity.
    + apply py_max_is_maximum.
  - intros pm25 pm10 co no2 so2 o3 c. unfold c, current_values, get0.
    repeat split; simplify_map_eq; reflexivity.
  - vm_compute. reflexivity.
Qed.

(* ================================================================= *)
(** ** Upstream failures *)

Lemma try_except_caught {A : Type} (body : outcome A)
    (handler : exn -> outcome A) (e : exn) :
  body = Raise e -> is_Exception e = true -> try_except body handler = handler e.
Proof. intros -> He. simpl. rewrite He. reflexivity. Qed.

(** C8. When an upstream fetch raises an exception (of a class derived
    from [Exception]), the climate panel and the map catch it and return
    a red-text HTML error panel, whereas the air-quality panel and the
    satellite panel do not catch it: the exception is the outcome of the
    call and so reaches the caller, [manual_update], which does not
    catch it either. *)
Theorem upstream_failure_handling :
  forall (W : Collaborators) (lat lon : Q) (location_name date_str : string)
         (e : exn),
    (forall cl,
        new_client ".cache_climate" = Return cl ->
        weather_api cl climate_url lat lon date_str = Raise e ->
        is_Exception e = true ->
        get_climate_data lat lon location_name date_str =
          Return ("<div style='color:red;padding:.5em;'>Climate data unavailable: "
                    +:+ str e +:+ "</div>"))
    /\ (forall (mlat mlon : option Q) (zoom : Z) (tiles_label : string),
        folium_Map (make_map_args zoom (tile_choice tiles_label)) = Raise e ->
        is_Exception e = true ->
        create_india_map mlat mlon zoom tiles_label =
          Return ("<div style='color:red;padding:1em;'>Error generating map: "
                    +:+ str e +:+ "</div>"))
    /\ (requests_get air_quality_url lat lon = Raise e ->
        get_air_quality lat lon location_name date_str = Raise e)
    /\ (forall resp,
        requests_get air_quality_url lat lon = Return resp ->
        raise_for_status resp = Raise e ->
        get_air_quality lat lon location_name date_str = Raise e)
    /\ (forall d,
        strptime date_str = Return d ->
        weather_api satellite_client satellite_url lat lon (isoformat d) = Raise e ->
        get_satellite_radiation lat lon location_name date_str = Raise e)
    /\ (forall (zoom : Z) (tiles_label : string),
        is_within_india lat lon = true ->
        get_air_quality lat lon (fmt4 lat +:+ ", " +:+ fmt4 lon) today = Raise e ->
        manual_update (Some lat) (Some lon) zoom tiles_label = Raise e).
Proof.
  intros W lat lon location_name date_str e.
  split; [|split; [|split; [|split; [|split]]]].
  - intros cl Hcl Hapi He. unfold get_climate_data. rewrite Hcl. cbn.
    rewrite (try_except_caught _ _ e); [reflexivity| |exact He].
    rewrite Hapi. reflexivity.
  - intros mlat mlon zoom tiles_label Hmap He. unfold create_india_map.
    rewrite (try_except_caught _ _ e); [reflexivity| |exact He].
    rewrite Hmap. reflexivity.
  - intros Hget. unfold get_air_quality. rewrite Hget. reflexivity.
  - intros resp Hget Hstatus. unfold get_air_quality.
    rewrite Hget. cbn. rewrite Hstatus. reflexivity.
  - intros d Hd Hapi. unfold get_satellite_radiation. rewrite Hd. cbn.
    rewrite Hapi. reflexivity.
  - intros zoom tiles_label Hin Hair. unfold manual_update.
    rewrite Hin, Hair. reflexivity.
Qed.

(** Nagpur (21, 79) on 2025-06-01, without network and with a failing
    server. *)
Lemma upstream_failure_handling_witness :
  @get_climate_data offline 21 79 "Nagpur" "2025-06-01" =
    Return "<div style='color:red;padding:.5em;'>Climate data unavailable: Connection refused</div>"
  /\ @create_india_map offline (Some 21) (Some 79) 5 "OpenStreetMap" =
    Return "<div style='color:red;padding:1em;'>Error generating map: Connection refused</div>"
  /\ @get_air_quality offline 21 79 "Nagpur" "2025-06-01" = Raise down
  /\ @get_air_quality bad_status 21 79 "Nagpur" "2025-06-01" = Raise server_error
  /\ @get_satellite_radiation offline 21 79 "Nagpur" "2025-06-01" = Raise down
  /\ @manual_update offline (Some 21) (Some 79) 5 "OpenStreetMap" = Raise down.
Proof.
  destruct (upstream_failure_handling offline 21 79 "Nagpur" "2025-06-01" down)
    as [Hclimate [Hmap [Hair [_ [Hsat _]]]]].
  destruct (upstream_failure_handling offline 21 79 ", " "2025-06-01" down)
    as [_ [_ [Hair' [_ [_ Hcaller]]]]].
  destruct (upstream_failure_handling bad_status 21 79 "Nagpur" "2025-06-01"
              server_error) as [_ [_ [_ [Hstatus _]]]].
  split; [exact (Hclimate tt eq_refl eq_refl eq_refl)|].
  split; [exact (Hmap (Some 21) (Some 79) 5%Z "OpenStreetMap" eq_refl eq_refl)|].
  split; [exact (Hair eq_refl)|].
  split; [exact (Hstatus tt eq_refl eq_refl)|].
  split; [exact (Hsat "2025-06-01" eq_refl eq_refl)|].
  exact (Hcaller 5%Z "OpenStreetMap" eq_refl (Hair' eq_refl)).
Defined.

(* ================================================================= *)
(** ** [sub_index] on the empty table *)

Lemma interpolate_raises (C : Q) (b : breakpoint) (e : exn) :
  interpolate C b = Raise e -> C_low b == C_high b /\ e = ZeroDivisionError.
Proof.
  unfold interpolate, py_div.
  destruct (Qeq_bool (C_high b - C_low b) 0) eqn:E; cbn; [|discriminate].
  intros [= <-]. apply Qeq_bool_iff in E. split; [lra|reflexivity].
Qed.

Lemma item_last_cons {A : Type} (x : A) (l : list A) :
  exists y, item_last (x :: l) = Return y /\ In y (x :: l).
Proof.
  destruct (@exists_last A (x :: l)) as [init [y Heq]]; [discriminate|].
  exists y. rewrite Heq, item_last_snoc. split; [reflexivity|].
  apply in_or_app. right. left. reflexivity.
Qed.

(** [sub_index] raises [IndexError] on the empty table, whatever the
    concentration, and on no other table: on a table with at least one
    band neither [breakpoints[0]] nor [breakpoints[-1]] can fail. *)
Theorem sub_index_IndexError_iff :
  forall (C : Q) (breakpoints : list breakpoint),
    sub_index C breakpoints = Raise IndexError <-> breakpoints = [].
Proof.
  intros C breakpoints. split.
  - unfold sub_index.
    destruct (sub_index_loop C breakpoints) as [r|] eqn:E.
    + intros ->. destruct (sub_index_loop_some _ _ _ E) as [b [_ Hr]].
      symmetry in Hr. destruct (interpolate_raises C b _ Hr) as [_ He].
      discriminate He.
    + destruct breakpoints as [|b0 rest]; [reflexivity|]. cbn.
      destruct (Qlt_bool C (C_low b0)); cbn; [discriminate|].
      destruct (item_last_cons b0 rest) as [y [Hy _]].
      rewrite Hy. cbn. discriminate.
  - intros ->. reflexivity.
Qed.

(** The empty table at 7. *)
Lemma sub_index_IndexError_iff_witness :
  sub_index 7 [] = Raise IndexError /\ ([] : list breakpoint) = [].
Proof.
  assert (H : sub_index 7 [] = Raise IndexError).
  { apply (proj2 (sub_index_IndexError_iff 7 [])). reflexivity. }
  split; [exact H|].
  exact (proj1 (sub_index_IndexError_iff 7 []) H).
Defined.

(* ================================================================= *)
(** ** [sub_index] is monotone on the tables of the module

    The lemmas of this part are in the exact arithmetic of the model,
    for any regular table; the theorem is stated for the six tables of
    the module, whose band ends the code computes without rounding. *)

Lemma interpolation_monotone (b : breakpoint) (C1 C2 : Q) :
  C_low b < C_high b -> I_low b <= I_high b -> C1 <= C2 ->
  interpolation b C1 <= interpolation b C2.
Proof.
  intros Hw Hi HC. unfold interpolation.
  set (d := C_high b - C_low b).
  assert (Hd : 0 < d) by (unfold d; lra).
  assert (Hs : 0 <= (I_high b - I_low b) / d).
  { apply Qle_shift_div_l; [exact Hd|]. lra. }
  assert (Hm : (I_high b - I_low b) / d * (C1 - C_low b)
               <= (I_high b - I_low b) / d * (C2 - C_low b)).
  { rewrite !(Qmult_comm ((I_high b - I_low b) / d)).
    apply Qmult_le_compat_r; [lra|exact Hs]. }
  lra.
Qed.

Lemma regular_tail (b : breakpoint) (rest : list breakpoint) :
  regular (b :: rest) -> regular rest.
Proof.
  intros [Ha [Hc Hi]]. split; [|split].
  - exact (ascending_tail _ _ Ha).
  - exact (proj2 Hc).
  - exact (ascending_tail _ _ Hi).
Qed.

Lemma regular_band (t : list breakpoint) (b : breakpoint) :
  regular t -> In b t -> C_low b < C_high b /\ I_low b < I_high b.
Proof.
  intros [Ha [_ Hi]] Hin. split.
  - exact (ascending_width t b Ha Hin).
  - apply (ascending_width (map transpose t) (transpose b) Hi).
    apply in_map, Hin.
Qed.

(** Later bands have higher concentrations and higher indices. *)
Lemma regular_later (b : breakpoint) (rest : list breakpoint) (b' : breakpoint) :
  regular (b :: rest) -> In b' rest ->
  C_high b <= C_low b' /\ I_high b <= I_low b'.
Proof.
  intros [Ha [_ Hi]] Hin. split.
  - exact (ascending_later b rest b' Ha Hin).
  - apply (ascending_later (transpose b) (map transpose rest) (transpose b') Hi).
    apply in_map, Hin.
Qed.

(** The value the loop returns lies in the index range of a band that
    contains the concentration. *)
Lemma sub_index_loop_value (C : Q) (t : list breakpoint) (r : outcome Q) :
  regular t -> sub_index_loop C t = Some r ->
  exists b, In b t /\ contains b C /\ r = Return (interpolation b C) /\
            I_low b <= interpolation b C /\ interpolation b C <= I_high b.
Proof.
  intros Hreg E.
  destruct (sub_index_loop_some C t r E) as [b [Hfirst ->]].
  destruct (first_containing_In _ _ _ Hfirst) as [Hin Hb].
  destruct (regular_band t b Hreg Hin) as [Hw Hi].
  exists b. split; [exact Hin|]. split; [exact Hb|].
  split; [apply interpolate_width, Hw|].
  apply interpolation_bounds; [exact Hw|lra|exact Hb].
Qed.

(** Within the loop: a larger concentration gets a larger value. *)
Lemma sub_index_loop_monotone (t : list breakpoint) (C1 C2 : Q)
    (r1 r2 : outcome Q) :
  regular t -> C1 <= C2 ->
  sub_index_loop C1 t = Some r1 -> sub_index_loop C2 t = Some r2 ->
  exists v1 v2, r1 = Return v1 /\ r2 = Return v2 /\ v1 <= v2.
Proof.
  intros Hreg HC. revert r1 r2.
  induction t as [|b rest IH]; intros r1 r2; simpl; [discriminate|].
  destruct (regular_band (b :: rest) b Hreg (or_introl eq_refl)) as [Hw Hi].
  destruct (in_band C1 b) eqn:E1; destruct (in_band C2 b) eqn:E2.
  - intros [= <-] [= <-].
    exists (interpolation b C1), (interpolation b C2).
    rewrite !interpolate_width by exact Hw.
    split; [reflexivity|]. split; [reflexivity|].
    apply interpolation_monotone; [exact Hw|lra|exact HC].
  - intros [= <-] H2.
    destruct (sub_index_loop_value C2 rest r2 (regular_tail _ _ Hreg) H2)
      as [b' [Hin' [_ [-> [Hlo' _]]]]].
    apply in_band_iff in E1.
    destruct (interpolation_bounds b C1 Hw (Qlt_le_weak _ _ Hi) E1) as [_ Hhi].
    destruct (regular_later b rest b' Hreg Hin') as [_ Hstep].
    exists (interpolation b C1), (interpolation b' C2).
    rewrite interpolate_width by exact Hw.
    split; [reflexivity|]. split; [reflexivity|]. lra.
  - intros H1 _. exfalso.
    destruct (sub_index_loop_value C1 rest r1 (regular_tail _ _ Hreg) H1)
      as [b' [Hin' [[Hlo' _] _]]].
    destruct (regular_later b rest b' Hreg Hin') as [Hstep _].
    apply in_band_false_iff in E1. apply in_band_iff in E2.
    destruct E2 as [_ E2]. apply E1. split; lra.
  - apply IH. exact (regular_tail _ _ Hreg).
Qed.

(** On a contiguous ascending table a concentration that no band
    contains lies below the first band or above every band. *)
Lemma no_band_outside (b0 : breakpoint) (rest : list breakpoint) (C : Q) :
  ascending (b0 :: rest) -> contiguous (b0 :: rest) ->
  (forall b, In b (b0 :: rest) -> ~ contains b C) ->
  C < C_low b0 \/ forall b, In b (b0 :: rest) -> C_high b < C.
Proof.
  revert b0. induction rest as [|b1 rest IH]; intros b0 Ha Hc Hno.
  - assert (H0 : ~ contains b0 C) by (apply Hno; left; reflexivity).
    unfold contains in H0.
    destruct (Qlt_le_dec C (C_low b0)) as [Hlt|Hge]; [left; exact Hlt|].
    right. intros b [<-|[]].
    destruct (Qlt_le_dec (C_high b0) C) as [Hhi|Hhi]; [exact Hhi|tauto].
  - assert (H0 : ~ contains b0 C) by (apply Hno; left; reflexivity).
    unfold contains in H0.
    destruct Ha as [Hw0 [Hstep Ha]]. destruct Hc as [Heq Hc].
    destruct (IH b1 Ha Hc) as [Hlt|Habove].
    + intros b Hin. apply Hno. right. exact Hin.
    + left. destruct (Qlt_le_dec C (C_low b0)) as [H|H]; [exact H|].
      exfalso. apply H0. split; [exact H|]. lra.
    + right. intros b [<-|Hin]; [|apply Habove, Hin].
      pose proof (Habove b1 (or_introl eq_refl)) as H1.
      assert (C_low b1 < C_high b1) by (simpl in Ha; tauto). lra.
Qed.

Lemma regular_first_lowest (b0 : breakpoint) (rest : list breakpoint)
    (b : breakpoint) :
  regular (b0 :: rest) -> In b (b0 :: rest) ->
  C_low b0 <= C_low b /\ I_low b0 <= I_low b.
Proof.
  intros Hreg [<-|Hin]; [split; lra|].
  destruct (regular_later b0 rest b Hreg Hin).
  destruct (regular_band _ b0 Hreg (or_introl eq_refl)). split; lra.
Qed.

Lemma regular_last_highest (init : list breakpoint) (bn b : breakpoint) :
  regular (init ++ [bn]) -> In b (init ++ [bn]) -> I_high b <= I_high bn.
Proof.
  intros Hreg Hin. apply in_app_or in Hin.
  destruct Hin as [Hin|[<-|[]]]; [|lra].
  destruct Hreg as [_ [_ Hi]]. rewrite map_app in Hi. simpl in Hi.
  pose proof (ascending_earlier (map transpose init) (transpose bn) []
                (transpose b) Hi (in_map transpose init b Hin)) as H1.
  assert (H2 : C_low (transpose bn) < C_high (transpose bn)).
  { apply (ascending_width _ _ Hi), in_or_app. right. left. reflexivity. }
  simpl in H1, H2. lra.
Qed.

Lemma sub_index_monotone_regular (t : list breakpoint) (C1 C2 : Q) :
  t <> [] -> regular t -> C1 <= C2 ->
  exists v1 v2,
    sub_index C1 t = Return v1 /\ sub_index C2 t = Return v2 /\ v1 <= v2.
Proof.
  intros Hne Hreg HC.
  assert (Hwf : forall b, In b t -> C_low b < C_high b /\ I_low b <= I_high b).
  { intros b Hin. destruct (regular_band t b Hreg Hin). split; lra. }
  destruct (sub_index_within_some_band t C1 Hne Hwf)
    as [v1 [b1 [Hv1 [Hin1 [Hlo1 Hhi1]]]]].
  destruct (sub_index_within_some_band t C2 Hne Hwf)
    as [v2 [b2 [Hv2 [Hin2 [Hlo2 Hhi2]]]]].
  exists v1, v2. split; [exact Hv1|]. split; [exact Hv2|].
  destruct t as [|b0 rest]; [congruence|].
  destruct (exists_last Hne) as [init [bn Heq]].
  destruct Hreg as [Ha [Hc Hi]].
  assert (Hreg : regular (b0 :: rest)) by (split; [|split]; assumption).
  assert (Hw0 : C_low b0 < C_high b0) by (simpl in Ha; tauto).
  destruct (sub_index_loop C1 (b0 :: rest)) as [r1|] eqn:E1;
    destruct (sub_index_loop C2 (b0 :: rest)) as [r2|] eqn:E2.
  - destruct (sub_index_loop_monotone _ C1 C2 r1 r2 Hreg HC E1 E2)
      as [w1 [w2 [-> [-> Hle]]]].
    unfold sub_index in Hv1, Hv2. rewrite E1 in Hv1. rewrite E2 in Hv2.
    injection Hv1 as <-. injection Hv2 as <-. exact Hle.
  - pose proof (proj1 (sub_index_loop_none _ _) E2) as Hno2.
    destruct (sub_index_loop_value C1 _ r1 Hreg E1) as [b [Hin [[HbLo HbHi] _]]].
    destruct (no_band_outside b0 rest C2 Ha Hc Hno2) as [Hlt|Habove].
    + exfalso. destruct (regular_first_lowest b0 rest b Hreg Hin). lra.
    + assert (Hge : ~ C2 < C_low b0).
      { pose proof (Habove b0 (or_introl eq_refl)). lra. }
      rewrite (sub_index_ceiling b0 rest init bn C2 Heq Hno2 Hge) in Hv2.
      injection Hv2 as <-.
      rewrite Heq in Hreg, Hin1.
      pose proof (regular_last_highest init bn b1 Hreg Hin1). lra.
  - pose proof (proj1 (sub_index_loop_none _ _) E1) as Hno1.
    destruct (no_band_outside b0 rest C1 Ha Hc Hno1) as [Hlt|Habove].
    + rewrite (sub_index_floor b0 rest C1 Hno1 Hlt) in Hv1.
      injection Hv1 as <-.
      destruct (regular_first_lowest b0 rest b2 Hreg Hin2). lra.
    + exfalso.
      destruct (sub_index_loop_value C2 _ r2 Hreg E2) as [b [Hin [[_ HbHi] _]]].
      pose proof (Habove b Hin). lra.
  - pose proof (proj1 (sub_index_loop_none _ _) E1) as Hno1.
    pose proof (proj1 (sub_index_loop_none _ _) E2) as Hno2.
    destruct (no_band_outside b0 rest C1 Ha Hc Hno1) as [Hlt|Habove].
    + rewrite (sub_index_floor b0 rest C1 Hno1 Hlt) in Hv1.
      injection Hv1 as <-.
      destruct (regular_first_lowest b0 rest b2 Hreg Hin2). lra.
    + assert (Hge1 : ~ C1 < C_low b0).
      { pose proof (Habove b0 (or_introl eq_refl)). lra. }
      assert (Hge2 : ~ C2 < C_low b0) by lra.
      rewrite (sub_index_ceiling b0 rest init bn C1 Heq Hno1 Hge1) in Hv1.
      rewrite (sub_index_ceiling b0 rest init bn C2 Heq Hno2 Hge2) in Hv2.
      injection Hv1 as <-. injection Hv2 as <-. lra.
Qed.

Lemma six_tables_regular (t : list breakpoint) :
  In t six_tables -> t <> [] /\ regular t.
Proof.
  intros Hin. split.
  - repeat (destruct Hin as [<-|Hin]); try destruct Hin; discriminate.
  - split; [exact (six_tables_ascending t Hin)|].
    split; [exact (six_tables_contiguous t Hin)|].
    repeat (destruct Hin as [<-|Hin]); try destruct Hin;
      simpl; repeat split; reflexivity || (intro H; discriminate H).
Qed.

(** On each of the six pollutant tables of the module [sub_index]
    returns for every concentration and never decreases when the
    concentration grows. *)
Theorem sub_index_monotone :
  forall (t : list breakpoint) (C1 C2 : Q),
    In t six_tables -> C1 <= C2 ->
    exists v1 v2,
      sub_index C1 t = Return v1 /\ sub_index C2 t = Return v2 /\ v1 <= v2.
Proof.
  intros t C1 C2 Ht HC. destruct (six_tables_regular t Ht) as [Hne Hreg].
  apply sub_index_monotone_regular; assumption.
Qed.

(** PM10 at 100, the end of a band, and at 101, in the next band. *)
Lemma sub_index_monotone_witness :
  In pm10_table six_tables /\ 100 <= 101 /\
  exists v1 v2,
    sub_index 100 pm10_table = Return v1 /\
    sub_index 101 pm10_table = Return v2 /\ v1 <= v2.
Proof.
  assert (Hin : In pm10_table six_tables) by (right; left; reflexivity).
  assert (Hle : 100 <= 101) by (intro H; discriminate H).
  split; [exact Hin|]. split; [exact Hle|].
  exact (sub_index_monotone pm10_table 100 101 Hin Hle).
Defined.

(** In an ascending table with a gap between two consecutive bands, a
    concentration inside the gap matches no band and gets the [I_high]
    of the last band of the table, not a value between the two bands. *)
Theorem sub_index_gap_ceiling :
  forall (pre : list breakpoint) (b1 b2 : breakpoint)
         (post init : list breakpoint) (bn : breakpoint) (C : Q),
    pre ++ b1 :: b2 :: post = init ++ [bn] ->
    ascending (pre ++ b1 :: b2 :: post) ->
    C_high b1 < C -> C < C_low b2 ->
    sub_index C (pre ++ b1 :: b2 :: post) = Return (I_high bn).
Proof.
  intros pre b1 b2 post init bn C Heq Hasc H1 H2.
  assert (Hw1 : C_low b1 < C_high b1).
  { apply (ascending_width _ b1 Hasc), in_or_app. right. left. reflexivity. }
  assert (Hno : forall b, In b (pre ++ b1 :: b2 :: post) -> ~ contains b C).
  { intros b Hin. apply in_app_or in Hin. destruct Hin as [Hin|[<-|Hin]].
    - apply (ascending_earlier_miss pre b1 (b2 :: post) C Hasc); [lra|exact Hin].
    - intros [_ Hhi]. lra.
    - apply (ascending_below_first b2 post C); [|exact H2|exact Hin].
      apply (ascending_app_r (pre ++ [b1])). rewrite <- app_assoc. exact Hasc. }
  destruct (pre ++ b1 :: b2 :: post) as [|b0 rest] eqn:E.
  { destruct pre; discriminate E. }
  apply (sub_index_ceiling b0 rest init bn C Heq Hno).
  assert (Hin0 : In b0 (pre ++ [b1])).
  { destruct pre as [|x pre]; simpl in E; injection E as -> _; left; reflexivity. }
  assert (Hw0 : C_low b0 < C_high b0).
  { apply (ascending_width _ b0 Hasc). left. reflexivity. }
  rewrite <- E in Hasc.
  apply in_app_or in Hin0. destruct Hin0 as [Hin0|[<-|[]]]; [|lra].
  pose proof (ascending_earlier pre b1 (b2 :: post) b0 Hasc Hin0). lra.
Qed.

(** A table with a gap between 30 and 40: at 35 the index is 500. *)
Lemma sub_index_gap_ceiling_witness :
  sub_index 35 ([] ++ bp 0 30 0 50 :: bp 40 60 51 100 :: [bp 60 90 101 500])
    = Return 500.
Proof.
  apply (sub_index_gap_ceiling [] (bp 0 30 0 50) (bp 40 60 51 100)
           [bp 60 90 101 500] [bp 0 30 0 50; bp 40 60 51 100]
           (bp 60 90 101 500) 35).
  - reflexivity.
  - simpl. repeat split; reflexivity || (intro H; discriminate H).
  - reflexivity.
  - reflexivity.
Defined.

(* ================================================================= *)
(** ** The composite index, continued *)

Lemma py_max_monotone (x x' : Q) (ys ys' : list Q) :
  x <= x' -> Forall2 Qle ys ys' -> py_max x ys <= py_max x' ys'.
Proof.
  intros Hx Hys. revert x x' Hx.
  induction Hys as [|y y' ys ys' Hy Hys IH]; intros x x' Hx; [exact Hx|].
  change (py_max (if Qlt_bool x y then y else x) ys
          <= py_max (if Qlt_bool x' y' then y' else x') ys').
  apply IH.
  destruct (Qlt_bool x y) eqn:E; destruct (Qlt_bool x' y') eqn:E'; try lra.
  - assert (~ x' < y') by (rewrite <- Qlt_bool_iff; congruence). lra.
  - apply Qlt_bool_iff in E'. lra.
Qed.

Lemma Qdiv_1000_monotone (a b : Q) : a <= b -> a / 1000.0 <= b / 1000.0.
Proof.
  intros H. unfold Qdiv. apply Qmult_le_compat_r; [exact H|].
  intro E. discriminate E.
Qed.

(** With the tables of the module the composite AQI never decreases
    when the concentrations grow: for two dictionaries of numeric
    readings whose carbon monoxide reading fits a [float] (it is divided
    by 1000.0), if every pollutant reads at least as much in [c'] as in
    [c], both indices are computed and that of [c'] is at least that of
    [c]. *)
Theorem get_air_quality_aqi_monotone :
  forall c c' : gmap string Q,
    in_float_range (get0 c "carbon_monoxide") ->
    in_float_range (get0 c' "carbon_monoxide") ->
    (forall key, In key pollutant_keys -> get0 c key <= get0 c' key) ->
    exists aqi aqi',
      get_air_quality_aqi AQI_BREAKPOINTS c = Return aqi /\
      get_air_quality_aqi AQI_BREAKPOINTS c' = Return aqi' /\
      aqi <= aqi'.
Proof.
  intros c c' _ _ Hle.
  destruct (get_air_quality_sub_indices_returns c)
    as [s [Hs [H1 [H2 [H3 [H4 [H5 H6]]]]]]].
  destruct (get_air_quality_sub_indices_returns c')
    as [s' [Hs' [H1' [H2' [H3' [H4' [H5' H6']]]]]]].
  exists (max_sub_index s), (max_sub_index s').
  unfold get_air_quality_aqi. rewrite Hs, Hs'.
  split; [reflexivity|]. split; [reflexivity|].
  assert (Hmono : forall t C C' v v',
             In t six_tables -> C <= C' ->
             sub_index C t = Return v -> sub_index C' t = Return v' -> v <= v').
  { intros t C C' v v' Ht HC Hv Hv'.
    destruct (six_tables_regular t Ht) as [Hne Hreg].
    destruct (sub_index_monotone_regular t C C' Hne Hreg HC)
      as [w [w' [Hw [Hw' Hww]]]].
    rewrite Hv in Hw. rewrite Hv' in Hw'.
    injection Hw as <-. injection Hw' as <-. exact Hww. }
  unfold max_sub_index. apply py_max_monotone.
  - apply (Hmono pm2_5_table _ _ _ _ (or_introl eq_refl)
             (Hle "pm2_5" (or_introl eq_refl)) H1 H1').
  - repeat constructor.
    + apply (Hmono pm10_table (get0 c "pm10") (get0 c' "pm10"));
        [simpl; tauto|apply Hle; simpl; tauto|exact H2|exact H2'].
    + apply (Hmono carbon_monoxide_table
               (get0 c "carbon_monoxide" / 1000.0)
               (get0 c' "carbon_monoxide" / 1000.0));
        [simpl; tauto|apply Qdiv_1000_monotone, Hle; simpl; tauto
        |exact H3|exact H3'].
    + apply (Hmono nitrogen_dioxide_table
               (get0 c "nitrogen_dioxide") (get0 c' "nitrogen_dioxide"));
        [simpl; tauto|apply Hle; simpl; tauto|exact H4|exact H4'].
    + apply (Hmono sulphur_dioxide_table
               (get0 c "sulphur_dioxide") (get0 c' "sulphur_dioxide"));
        [simpl; tauto|apply Hle; simpl; tauto|exact H5|exact H5'].
    + apply (Hmono ozone_table (get0 c "ozone") (get0 c' "ozone"));
        [simpl; tauto|apply Hle; simpl; tauto|exact H6|exact H6'].
Qed.

(** A dictionary without any pollutant against one with ozone at 120. *)
Lemma get_air_quality_aqi_monotone_witness :
  in_float_range (get0 ∅ "carbon_monoxide") /\
  in_float_range (get0 (<["ozone" := 120]> ∅) "carbon_monoxide") /\
  exists aqi aqi',
    get_air_quality_aqi AQI_BREAKPOINTS ∅ = Return aqi /\
    get_air_quality_aqi AQI_BREAKPOINTS (<["ozone" := 120]> ∅) = Return aqi' /\
    aqi <= aqi'.
Proof.
  assert (H0 : in_float_range (get0 ∅ "carbon_monoxide")).
  { split; vm_compute; intro H; discriminate H. }
  assert (H1 : in_float_range (get0 (<["ozone" := 120]> ∅) "carbon_monoxide")).
  { split; vm_compute; intro H; discriminate H. }
  split; [exact H0|]. split; [exact H1|].
  apply (get_air_quality_aqi_monotone ∅ (<["ozone" := 120]> ∅) H0 H1).
  intros key Hin.
  repeat (destruct Hin as [<-|Hin]); try destruct Hin;
    vm_compute; intro H; discriminate H.
Defined.

(* ================================================================= *)
(** ** [aqi_color], continued *)

(** Each pair is returned on the range of its band and nowhere else:
    the ranges do not overlap and no two bands share a pair. *)
Theorem aqi_color_pair_iff :
  forall v : Q,
    (aqi_color v = ("#009966", "Good") <-> 0 <= v /\ v <= 50) /\
    (aqi_color v = ("#ffde33", "Satisfactory") <-> 51 <= v /\ v <= 100) /\
    (aqi_color v = ("#ff9933", "Moderate") <-> 101 <= v /\ v <= 200) /\
    (aqi_color v = ("#cc0033", "Poor") <-> 201 <= v /\ v <= 300) /\
    (aqi_color v = ("#660099", "Very Poor") <-> 301 <= v /\ v <= 400) /\
    (aqi_color v = ("#7e0023", "Severe") <-> 401 <= v /\ v <= 500).
Proof.
  intros v. unfold aqi_color, AQI_BANDS, aqi_color_loop, low, high, color, label.
  destruct (between 0 v 50) eqn:E1;
    [apply between_iff in E1|apply between_false_iff in E1;
     destruct (between 51 v 100) eqn:E2;
     [apply between_iff in E2|apply between_false_iff in E2;
      destruct (between 101 v 200) eqn:E3;
      [apply between_iff in E3|apply between_false_iff in E3;
       destruct (between 201 v 300) eqn:E4;
       [apply between_iff in E4|apply between_false_iff in E4;
        destruct (between 301 v 400) eqn:E5;
        [apply between_iff in E5|apply between_false_iff in E5;
         destruct (between 401 v 500) eqn:E6;
         [apply between_iff in E6|apply between_false_iff in E6]]]]]];
    repeat match goal with
           | |- _ /\ _ => split
           | |- _ <-> _ => split
           end;
    intros Hx; try discriminate Hx; try reflexivity; try (split; lra); lra.
Qed.

(** 250 is "Poor", and whatever is "Poor" lies between 201 and 300. *)
Lemma aqi_color_pair_iff_witness :
  (201 <= 250 /\ 250 <= 300) /\ aqi_color 250 = ("#cc0033", "Poor").
Proof.
  assert (H : 201 <= 250 /\ 250 <= 300) by (split; intro E; discriminate E).
  split; [exact H|].
  destruct (aqi_color_pair_iff 250) as [_ [_ [_ [Hpoor _]]]].
  exact (proj2 Hpoor H).
Defined.

(* ================================================================= *)
(** ** The air-quality panel *)

Lemma bind_Return {A B : Type} (a : A) (k : A -> outcome B) :
  (Return a ≫= k) = k a.
Proof. reflexivity. Qed.

Lemma bind_Raise {A B : Type} (e : exn) (k : A -> outcome B) :
  (Raise e ≫= k) = Raise e.
Proof. reflexivity. Qed.

(** Once the request and the status check have returned and the
    decoding has returned a dictionary of numeric readings whose carbon
    monoxide reading fits a [float], [get_air_quality] returns the
    panel: no such reading, missing or negative ones included, makes
    the index computation raise.  The AQI shown lies in [0, 500] and is
    the composite index of the readings, and the colour and label shown
    are those of the AQI band that contains it, never the sentinel. *)
Theorem get_air_quality_panel :
  forall (W : Collaborators) (lat lon : Q) (location_name date_str : string)
         (resp : http_response) (c : gmap string Q),
    requests_get air_quality_url lat lon = Return resp ->
    raise_for_status resp = Return tt ->
    json_current resp = Return c ->
    in_float_range (get0 c "carbon_monoxide") ->
    exists (s : sub_indices) (aqi : Q) (b : aqi_band),
      get_air_quality lat lon location_name date_str =
        Return (air_quality_panel location_name date_str
                  (AirPanel (color b) (label b) aqi s c)) /\
      get_air_quality_sub_indices AQI_BREAKPOINTS c = Return s /\
      get_air_quality_aqi AQI_BREAKPOINTS c = Return aqi /\
      (0 <= aqi /\ aqi <= 500) /\
      In b AQI_BANDS /\ in_aqi_band aqi b /\
      (color b, label b) <> sentinel.
Proof.
  intros W lat lon location_name date_str resp c Hget Hstatus Hjson _.
  destruct (get_air_quality_sub_indices_returns c)
    as [s [Hs [H1 [H2 [H3 [H4 [H5 H6]]]]]]].
  assert (Hr : in_index_ranges (max_sub_index s)).
  { destruct (py_max_In (idx_pm25 s)
                [idx_pm10 s; idx_co s; idx_no2 s; idx_so2 s; idx_o3 s])
      as [E|[E|[E|[E|[E|[E|[]]]]]]].
    - destruct (sub_index_six_tables pm2_5_table (get0 c "pm2_5"))
        as [v [Hv Hin]]; [simpl; tauto|].
      unfold max_sub_index. rewrite <- E. congruence.
    - destruct (sub_index_six_tables pm10_table (get0 c "pm10"))
        as [v [Hv Hin]]; [simpl; tauto|].
      unfold max_sub_index. rewrite <- E. congruence.
    - destruct (sub_index_six_tables carbon_monoxide_table
                  (get0 c "carbon_monoxide" / 1000.0))
        as [v [Hv Hin]]; [simpl; tauto|].
      unfold max_sub_index. rewrite <- E. congruence.
    - destruct (sub_index_six_tables nitrogen_dioxide_table
                  (get0 c "nitrogen_dioxide"))
        as [v [Hv Hin]]; [simpl; tauto|].
      unfold max_sub_index. rewrite <- E. congruence.
    - destruct (sub_index_six_tables sulphur_dioxide_table
                  (get0 c "sulphur_dioxide"))
        as [v [Hv Hin]]; [simpl; tauto|].
      unfold max_sub_index. rewrite <- E. congruence.
    - destruct (sub_index_six_tables ozone_table (get0 c "ozone"))
        as [v [Hv Hin]]; [simpl; tauto|].
      unfold max_sub_index. rewrite <- E. congruence. }
  destruct (aqi_color_loop_cases (max_sub_index s) AQI_BANDS)
    as [[b [Hin [Hb Hcol]]]|[Hno _]].
  - exists s, (max_sub_index s), b.
    split.
    { unfold get_air_quality.
      rewrite Hget, bind_Return, Hstatus, bind_Return, Hjson, bind_Return,
        Hs, bind_Return.
      unfold aqi_color. rewrite Hcol. reflexivity. }
    split; [exact Hs|].
    split; [unfold get_air_quality_aqi; rewrite Hs; reflexivity|].
    split; [apply in_index_ranges_0_500, Hr|].
    split; [exact Hin|]. split; [exact Hb|].
    apply AQI_BANDS_not_sentinel, Hin.
  - exfalso. apply in_index_ranges_iff in Hr.
    destruct Hr as [b [Hin Hb]]. exact (Hno b Hin Hb).
Qed.

(** The readings of the answering world, ozone at 250 and the other
    five at the end of their first band. *)
Lemma get_air_quality_panel_witness :
  in_float_range (get0 (current_values 30 50 1000 40 40 250) "carbon_monoxide") /\
  exists (s : sub_indices) (aqi : Q) (b : aqi_band),
    @get_air_quality online 21 79 "Nagpur" "2025-06-01" =
      Return (@air_quality_panel online "Nagpur" "2025-06-01"
                (AirPanel (color b) (label b) aqi s
                   (current_values 30 50 1000 40 40 250))) /\
    get_air_quality_sub_indices AQI_BREAKPOINTS
      (current_values 30 50 1000 40 40 250) = Return s /\
    get_air_quality_aqi AQI_BREAKPOINTS
      (current_values 30 50 1000 40 40 250) = Return aqi /\
    (0 <= aqi /\ aqi <= 500) /\
    In b AQI_BANDS /\ in_aqi_band aqi b /\
    (color b, label b) <> sentinel.
Proof.
  assert (Hco : in_float_range
                  (get0 (current_values 30 50 1000 40 40 250) "carbon_monoxide")).
  { split; vm_compute; intro H; discriminate H. }
  split; [exact Hco|].
  exact (get_air_quality_panel online 21 79 "Nagpur" "2025-06-01"
           (current_values 30 50 1000 40 40 250, [])
           (current_values 30 50 1000 40 40 250)
           eq_refl eq_refl eq_refl Hco).
Defined.

(* ================================================================= *)
(** ** The map *)

Lemma try_except_no_Exception {A : Type} (body : outcome A)
    (handler : exn -> outcome A) (e : exn) :
  (forall e', exists a, handler e' = Return a) ->
  try_except body handler = Raise e -> is_Exception e = false.
Proof.
  intros Hh. unfold try_except. destruct body as [a|e']; [discriminate|].
  destruct (is_Exception e') eqn:E.
  - destruct (Hh e') as [a Ha]. rewrite Ha. discriminate.
  - intros [= <-]. exact E.
Qed.

Lemma try_except_Return {A : Type} (body : outcome A)
    (handler : exn -> outcome A) (a : A) :
  body = Return a -> try_except body handler = Return a.
Proof. intros ->. reflexivity. Qed.

(** [create_india_map] never lets an exception derived from [Exception]
    escape, whichever call inside it fails; when the map, the marker and
    the rendering all return, the HTML of the map comes back inside the
    rounded frame. *)
Theorem create_india_map_outcome :
  forall (W : Collaborators) (lat lon : option Q) (zoom : Z)
         (tiles_label : string),
    (forall e, create_india_map lat lon zoom tiles_label = Raise e ->
               is_Exception e = false)
    /\ (forall m m' html,
          folium_Map (make_map_args zoom (tile_choice tiles_label)) = Return m ->
          place_marker lat lon m = Return m' ->
          repr_html m' = Return html ->
          create_india_map lat lon zoom tiles_label =
            Return ("<div style='border-radius:18px;box-shadow:0 4px 18px #8882;"
                      +:+ "overflow:hidden;margin:1em 0;min-height:520px;max-width:100%;'>"
                      +:+ html +:+ "</div>")).
Proof.
  intros W lat lon zoom tiles_label. split.
  - intros e. unfold create_india_map. apply try_except_no_Exception.
    intros e'. eexists. reflexivity.
  - intros m m' html Hm Hm' Hhtml. unfold create_india_map.
    apply try_except_Return.
    rewrite Hm, bind_Return, Hm', bind_Return, Hhtml, bind_Return. reflexivity.
Qed.

(** The map of the answering world with a marker at Nagpur, and the map
    without network, where the failure is turned into the error panel. *)
Lemma create_india_map_outcome_witness :
  (exists html,
     @create_india_map online (Some 21) (Some 79) 5 "OpenStreetMap" =
       Return ("<div style='border-radius:18px;box-shadow:0 4px 18px #8882;"
                 +:+ "overflow:hidden;margin:1em 0;min-height:520px;max-width:100%;'>"
                 +:+ html +:+ "</div>")) /\
  (forall e, @create_india_map offline (Some 21) (Some 79) 5 "OpenStreetMap"
             = Raise e -> is_Exception e = false).
Proof.
  split.
  - exists "blue".
    apply (proj2 (create_india_map_outcome online (Some 21) (Some 79) 5
                    "OpenStreetMap") []
             [Marker (21, 79) "blue" "Lat: 0.0000, Lon: 0.0000"] "blue");
      reflexivity.
  - exact (proj1 (create_india_map_outcome offline (Some 21) (Some 79) 5
                    "OpenStreetMap")).
Defined.

(** A page made of the map alone comes back, or fails with an
    exception that is not derived from [Exception]. *)
Lemma map_then_page {W : Collaborators} {A : Type} (lat lon : option Q)
    (zoom : Z) (tiles_label : string) (f : string -> A) :
  (forall e,
      (map_html ← create_india_map lat lon zoom tiles_label;
       Return (f map_html)) = Raise e -> is_Exception e = false)
  /\ (forall page,
      (map_html ← create_india_map lat lon zoom tiles_label;
       Return (f map_html)) = Return page ->
      exists map_html,
        create_india_map lat lon zoom tiles_label = Return map_html /\
        page = f map_html).
Proof.
  destruct (create_india_map lat lon zoom tiles_label) as [html|e0] eqn:E.
  - split.
    + intros e. rewrite bind_Return. discriminate.
    + intros page. rewrite bind_Return. intros [= <-]. exists html. auto.
  - split.
    + intros e. rewrite bind_Raise. intros [= <-].
      revert E. unfold create_india_map. apply try_except_no_Exception.
      intros e'. eexists. reflexivity.
    + intros page. rewrite bind_Raise. discriminate.
Qed.

(** The map is always created around the national centroid, at the zoom
    asked for and without attribution; the tile set is the label itself
    when it is one of the two listed ones and OpenStreetMap for every
    other label. *)
Theorem map_args_fallback :
  forall (zoom : Z) (tiles_label : string),
    make_map_args zoom (tile_choice tiles_label) =
      MapArgs centroid zoom
        (if String.eqb tiles_label "CartoDB positron"
         then "CartoDB positron" else "OpenStreetMap")
        None.
Proof.
  intros zoom tiles_label. unfold tile_choice, tile_info, TILE_OPTIONS.
  cbn [List.find fst snd].
  destruct (String.eqb "OpenStreetMap" tiles_label) eqn:E1.
  - apply String.eqb_eq in E1. subst tiles_label. reflexivity.
  - destruct (String.eqb "CartoDB positron" tiles_label) eqn:E2.
    + apply String.eqb_eq in E2. subst tiles_label. reflexivity.
    + rewrite String.eqb_sym in E2. rewrite E2.
      unfold CUSTOM_TILES. rewrite lookup_empty. reflexivity.
Qed.

(** With both coordinates given exactly one marker is added, and it
    always lies inside the box of [is_within_india]: a blue one at the
    coordinates when they are inside, a red one at the national centroid
    when they are outside.  With a coordinate missing no marker is
    added. *)
Theorem place_marker_inside :
  forall (W : Collaborators) (m : folium_map),
    (forall lat_f lon_f : Q,
        exists mk,
          place_marker (Some lat_f) (Some lon_f) m = add_to mk m /\
          is_within_india (fst (position mk)) (snd (position mk)) = true /\
          (is_within_india lat_f lon_f = true ->
             position mk = (lat_f, lon_f) /\ icon_color mk = "blue") /\
          (is_within_india lat_f lon_f = false ->
             position mk = centroid /\ icon_color mk = "red"))
    /\ (forall lat lon : option Q,
          lat = None \/ lon = None -> place_marker lat lon m = Return m).
Proof.
  intros W m. split.
  - intros lat_f lon_f. unfold place_marker.
    destruct (is_within_india lat_f lon_f) eqn:E; cbn [negb].
    + eexists. split; [reflexivity|]. cbn [position fst snd].
      split; [exact E|]. split; [auto|discriminate].
    + eexists. split; [reflexivity|]. cbn [position fst snd].
      split; [reflexivity|]. split; [discriminate|auto].
  - intros lat lon [->| ->]; [reflexivity|]. destruct lat; reflexivity.
Qed.

(** A point in the Bay of Bengal east of the box: the red marker. *)
Lemma place_marker_inside_witness :
  is_within_india 15 99 = false /\
  (exists mk,
     @place_marker online (Some 15) (Some 99) [] = Return [mk] /\
     position mk = centroid /\ icon_color mk = "red") /\
  @place_marker online None (Some 99) [] = Return [].
Proof.
  destruct (place_marker_inside online []) as [Hboth Hnone].
  split; [reflexivity|]. split.
  - destruct (Hboth 15 99) as [mk [Hmk [_ [_ Hred]]]].
    exists mk. split; [exact Hmk|]. exact (Hred eq_refl).
  - apply Hnone. left. reflexivity.
Defined.

(* ================================================================= *)
(** ** The climate panel *)

Lemma string_app_assoc (s1 s2 s3 : string) :
  (s1 +:+ s2) +:+ s3 = s1 +:+ (s2 +:+ s3).
Proof.
  induction s1 as [|a s1 IH]; [reflexivity|].
  change (String a ((s1 +:+ s2) +:+ s3) = String a (s1 +:+ (s2 +:+ s3))).
  rewrite IH. reflexivity.
Qed.

Lemma string_app_empty_r (s : string) : s +:+ "" = s.
Proof.
  induction s as [|a s IH]; [reflexivity|].
  change (String a (s +:+ "") = String a s). rewrite IH. reflexivity.
Qed.

(** The loop builds the table row by row when every variable answers. *)
Lemma climate_rows_table {W : Collaborators} (d : daily)
    (labels : list (string * string)) :
  forall (arrays : list (list Q)) (i : nat) (html_rows : string),
    length arrays = length labels ->
    (forall j values, arrays !! j = Some values ->
                      ValuesAsNumpy d (i + j)%nat = Return values) ->
    climate_rows d i labels html_rows =
      Return (html_rows +:+ climate_table labels arrays).
Proof.
  induction labels as [|[key lbl] labels IH]; intros arrays i html_rows Hlen Hval.
  - destruct arrays; [|discriminate]. simpl. rewrite string_app_empty_r. reflexivity.
  - destruct arrays as [|values arrays]; [discriminate|].
    pose proof (Hval 0%nat values eq_refl) as H0.
    rewrite Nat.add_0_r in H0.
    cbn [climate_rows]. rewrite H0, bind_Return.
    assert (Hcell : (match values with
                     | [] => Return "-"
                     | _ :: _ =>
                         values' ← Return values;
                         v ← item_first values';
                         Return (fmt v)
                     end) = Return (climate_cell values)).
    { destruct values as [|v values]; reflexivity. }
    rewrite Hcell, bind_Return.
    rewrite (IH arrays (S i)).
    + cbn [climate_table]. unfold climate_row.
      rewrite !string_app_assoc. reflexivity.
    + simpl in Hlen. lia.
    + intros j vs Hj. rewrite Nat.add_succ_l, <- Nat.add_succ_r.
      apply Hval. exact Hj.
Qed.

(** A variable that fails stops the loop: the rows built so far are lost. *)
Lemma climate_rows_raise {W : Collaborators} (d : daily) (e : exn)
    (labels : list (string * string)) :
  forall (arrays : list (list Q)) (i : nat) (html_rows : string),
    (length arrays < length labels)%nat ->
    (forall j values, arrays !! j = Some values ->
                      ValuesAsNumpy d (i + j)%nat = Return values) ->
    ValuesAsNumpy d (i + length arrays)%nat = Raise e ->
    climate_rows d i labels html_rows = Raise e.
Proof.
  induction labels as [|[key lbl] labels IH]; intros arrays i html_rows Hlen Hval He.
  - simpl in Hlen. lia.
  - destruct arrays as [|values arrays].
    + simpl in He. rewrite Nat.add_0_r in He.
      cbn [climate_rows]. rewrite He. reflexivity.
    + pose proof (Hval 0%nat values eq_refl) as H0.
      rewrite Nat.add_0_r in H0.
      cbn [climate_rows]. rewrite H0, bind_Return.
      assert (Hcell : (match values with
                       | [] => Return "-"
                       | _ :: _ =>
                           values' ← Return values;
                           v ← item_first values';
                           Return (fmt v)
                       end) = Return (climate_cell values)).
      { destruct values as [|v values]; reflexivity. }
      rewrite Hcell, bind_Return.
      apply (IH arrays (S i)).
      * simpl in Hlen. lia.
      * intros j vs Hj. rewrite Nat.add_succ_l, <- Nat.add_succ_r.
        apply Hval. exact Hj.
      * rewrite Nat.add_succ_l, <- Nat.add_succ_r. exact He.
Qed.

(** When the client is built, the first response decodes and each of
    the 19 daily variables answers, [get_climate_data] returns the panel
    with one row per label of [VAR_LABELS], in that order: the first
    value of the variable, or a dash when its array is empty. *)
Theorem get_climate_data_table :
  forall (W : Collaborators) (lat lon : Q) (location_name date_str : string)
         (cl : client) (resp : response) (others : list response)
         (d : daily) (arrays : list (list Q)),
    new_client ".cache_climate" = Return cl ->
    weather_api cl climate_url lat lon date_str = Return (resp :: others) ->
    Daily resp = Return d ->
    length arrays = 19%nat ->
    (forall j values, arrays !! j = Some values ->
                      ValuesAsNumpy d j = Return values) ->
    get_climate_data lat lon location_name date_str =
      Return (climate_panel location_name date_str
                (climate_table VAR_LABELS arrays)).
Proof.
  intros W lat lon location_name date_str cl resp others d arrays
         Hcl Hapi Hd Hlen Hval.
  unfold get_climate_data. rewrite Hcl, bind_Return.
  apply try_except_Return.
  rewrite Hapi, bind_Return. cbn [item_first]. rewrite bind_Return.
  rewrite Hd, bind_Return.
  rewrite (climate_rows_table d VAR_LABELS arrays 0 "" Hlen Hval).
  reflexivity.
Qed.

(** The answering world: 18 variables with two values, the last empty. *)
Lemma get_climate_data_table_witness :
  @get_climate_data online 21 79 "Nagpur" "2025-06-01" =
    Return (@climate_panel online "Nagpur" "2025-06-01"
              (@climate_table online VAR_LABELS (repeat [27.5; 28] 18 ++ [[]]))).
Proof.
  apply (get_climate_data_table online 21 79 "Nagpur" "2025-06-01"
           ".cache_climate" (repeat [27.5; 28] 18 ++ [[]]) []
           (repeat [27.5; 28] 18 ++ [[]]) (repeat [27.5; 28] 18 ++ [[]])).
  - reflexivity.
  - reflexivity.
  - reflexivity.
  - reflexivity.
  - intros j values Hj. cbn. cbn in Hj. rewrite Hj. reflexivity.
Defined.

(** Once its client is built, [get_climate_data] lets no exception
    derived from [Exception] escape: a failure of the request, of the
    decoding or of any of the 19 variables, however many rows were
    already built, gives the red error panel.  The client itself is built
    before the [try]: its failure is the outcome of the call. *)
Theorem get_climate_data_failures :
  forall (W : Collaborators) (lat lon : Q) (location_name date_str : string),
    (forall cl e,
        new_client ".cache_climate" = Return cl ->
        get_climate_data lat lon location_name date_str = Raise e ->
        is_Exception e = false)
    /\ (forall cl resp others d arrays e,
        new_client ".cache_climate" = Return cl ->
        weather_api cl climate_url lat lon date_str = Return (resp :: others) ->
        Daily resp = Return d ->
        (length arrays < 19)%nat ->
        (forall j values, arrays !! j = Some values ->
                          ValuesAsNumpy d j = Return values) ->
        ValuesAsNumpy d (length arrays) = Raise e ->
        is_Exception e = true ->
        get_climate_data lat lon location_name date_str =
          Return ("<div style='color:red;padding:.5em;'>Climate data unavailable: "
                    +:+ str e +:+ "</div>"))
    /\ (forall e,
        new_client ".cache_climate" = Raise e ->
        get_climate_data lat lon location_name date_str = Raise e).
Proof.
  intros W lat lon location_name date_str. split; [|split].
  - intros cl e Hcl. unfold get_climate_data. rewrite Hcl, bind_Return.
    apply try_except_no_Exception. intros e'. eexists. reflexivity.
  - intros cl resp others d arrays e Hcl Hapi Hd Hlen Hval He Hexc.
    unfold get_climate_data. rewrite Hcl, bind_Return.
    rewrite (try_except_caught _ _ e); [reflexivity| |exact Hexc].
    rewrite Hapi, bind_Return. cbn [item_first]. rewrite bind_Return.
    rewrite Hd, bind_Return.
    rewrite (climate_rows_raise d e VAR_LABELS arrays 0 "" Hlen Hval He).
    reflexivity.
  - intros e He. unfold get_climate_data. rewrite He. reflexivity.
Qed.

(** Without network; with two variables only, where the third one
    fails after two rows; and with a cache that cannot be opened. *)
Lemma get_climate_data_failures_witness :
  (forall e, @get_climate_data offline 21 79 "Nagpur" "2025-06-01" = Raise e ->
             is_Exception e = false) /\
  @get_climate_data truncated 21 79 "Nagpur" "2025-06-01" =
    Return "<div style='color:red;padding:.5em;'>Climate data unavailable: index out of range</div>" /\
  @get_climate_data no_cache 21 79 "Nagpur" "2025-06-01" = Raise locked.
Proof.
  split; [|split].
  - intros e.
    exact (proj1 (get_climate_data_failures offline 21 79 "Nagpur" "2025-06-01")
             tt e eq_refl).
  - exact (proj1 (proj2 (get_climate_data_failures truncated 21 79 "Nagpur"
                           "2025-06-01"))
             ".cache_climate" [[27.5]; []] [] [[27.5]; []] [[27.5]; []]
             (Foreign true "index out of range")
             eq_refl eq_refl eq_refl ltac:(simpl; lia)
             ltac:(intros j values Hj; cbn; cbn in Hj; rewrite Hj; reflexivity)
             eq_refl eq_refl).
  - exact (proj2 (proj2 (get_climate_data_failures no_cache 21 79 "Nagpur"
                           "2025-06-01")) locked eq_refl).
Defined.

(** An answer that holds no response: [responses[0]] raises
    [IndexError]; the climate panel turns it into the error panel, the
    satellite panel lets it through. *)
Theorem empty_response_list :
  forall (W : Collaborators) (lat lon : Q) (location_name date_str : string),
    (forall cl,
        new_client ".cache_climate" = Return cl ->
        weather_api cl climate_url lat lon date_str = Return [] ->
        get_climate_data lat lon location_name date_str =
          Return ("<div style='color:red;padding:.5em;'>Climate data unavailable: "
                    +:+ str IndexError +:+ "</div>"))
    /\ (forall d,
        strptime date_str = Return d ->
        weather_api satellite_client satellite_url lat lon (isoformat d)
          = Return [] ->
        get_satellite_radiation lat lon location_name date_str = Raise IndexError).
Proof.
  intros W lat lon location_name date_str. split.
  - intros cl Hcl Hapi. unfold get_climate_data. rewrite Hcl, bind_Return.
    rewrite (try_except_caught _ _ IndexError); [reflexivity| |reflexivity].
    rewrite Hapi. reflexivity.
  - intros d Hd Hapi. unfold get_satellite_radiation.
    rewrite Hd, bind_Return, Hapi. reflexivity.
Qed.

Lemma empty_response_list_witness :
  @get_climate_data empty_answer 21 79 "Nagpur" "2025-06-01" =
    Return "<div style='color:red;padding:.5em;'>Climate data unavailable: list index out of range</div>" /\
  @get_satellite_radiation empty_answer 21 79 "Nagpur" "2025-06-01"
    = Raise IndexError.
Proof.
  destruct (empty_response_list empty_answer 21 79 "Nagpur" "2025-06-01")
    as [Hclimate Hsat].
  split.
  - exact (Hclimate ".cache_climate" eq_refl eq_refl).
  - exact (Hsat "2025-06-01" eq_refl eq_refl).
Defined.

(* ================================================================= *)
(** ** The callback of the coordinate fields *)

(** With a coordinate missing, or with coordinates outside the box of
    [is_within_india], [manual_update] fetches no data at all: whatever
    the three services would do, only the map is rendered.  The call
    then lets no exception derived from [Exception] escape, and the page
    it returns echoes the two fields, asks for valid coordinates and has
    an empty data panel. *)
Theorem manual_update_gate :
  forall (W : Collaborators) (lat lon : option Q) (zoom : Z)
         (tiles_label : string),
    (lat = None \/ lon = None \/
     exists la lo, lat = Some la /\ lon = Some lo /\
                   is_within_india la lo = false) ->
    manual_update lat lon zoom tiles_label =
      (map_html ← create_india_map lat lon zoom tiles_label;
       Return (lat, lon, info_message, map_html, ""))
    /\ (forall e, manual_update lat lon zoom tiles_label = Raise e ->
                  is_Exception e = false)
    /\ (forall page, manual_update lat lon zoom tiles_label = Return page ->
          exists map_html,
            create_india_map lat lon zoom tiles_label = Return map_html /\
            page = (lat, lon, info_message, map_html, "")).
Proof.
  intros W lat lon zoom tiles_label H.
  assert (Heq : manual_update lat lon zoom tiles_label =
                (map_html ← create_india_map lat lon zoom tiles_label;
                 Return (lat, lon, info_message, map_html, ""))).
  { unfold manual_update, info_message.
    destruct H as [->|[->|[la [lo [-> [-> Hout]]]]]].
    - reflexivity.
    - destruct lat; reflexivity.
    - rewrite Hout. reflexivity. }
  split; [exact Heq|]. rewrite Heq.
  exact (map_then_page lat lon zoom tiles_label
           (fun map_html => (lat, lon, info_message, map_html, ""))).
Qed.

(** Colombo, south of the box, in a world without network: the page
    comes back with the error panel of the map and no data. *)
Lemma manual_update_gate_witness :
  is_within_india 5.9 79.9 = false /\
  @manual_update offline (Some 5.9) (Some 79.9) 5 "OpenStreetMap" =
    Return (Some 5.9, Some 79.9, info_message,
            "<div style='color:red;padding:1em;'>Error generating map: Connection refused</div>",
            "").
Proof.
  split; [reflexivity|].
  rewrite (proj1 (manual_update_gate offline (Some 5.9) (Some 79.9) 5
                    "OpenStreetMap"
                    (or_intror (or_intror
                       (ex_intro _ 5.9 (ex_intro _ 79.9
                          (conj eq_refl (conj eq_refl eq_refl)))))))).
  reflexivity.
Defined.

Lemma get_climate_data_caught {W : Collaborators} (lat lon : Q)
    (location_name date_str : string) (cl : client) (e : exn) :
  new_client ".cache_climate" = Return cl ->
  weather_api cl climate_url lat lon date_str = Raise e ->
  is_Exception e = true ->
  get_climate_data lat lon location_name date_str =
    Return ("<div style='color:red;padding:.5em;'>Climate data unavailable: "
              +:+ str e +:+ "</div>").
Proof.
  intros Hcl Hapi He. unfold get_climate_data. rewrite Hcl, bind_Return.
  rewrite (try_except_caught _ _ e); [reflexivity| |exact He].
  rewrite Hapi. reflexivity.
Qed.

(** Inside the box the three panels are fetched in the order air
    quality, satellite, climate, and concatenated.  A failure of the
    climate service does not abort the page: its error panel takes the
    place of the climate table.  A failure of the satellite service
    does: the exception is the outcome although the air-quality panel
    was already built. *)
Theorem manual_update_page :
  forall (W : Collaborators) (la lo : Q) (zoom : Z) (tiles_label : string)
         (aqi_html : string),
    is_within_india la lo = true ->
    get_air_quality la lo (fmt4 la +:+ ", " +:+ fmt4 lo) today
      = Return aqi_html ->
    (forall sat_html climate_html map_html,
        get_satellite_radiation la lo (fmt4 la +:+ ", " +:+ fmt4 lo) today
          = Return sat_html ->
        get_climate_data la lo (fmt4 la +:+ ", " +:+ fmt4 lo) today
          = Return climate_html ->
        create_india_map (Some la) (Some lo) zoom tiles_label = Return map_html ->
        manual_update (Some la) (Some lo) zoom tiles_label =
          Return (Some la, Some lo,
                  "✅ Marker at (" +:+ (fmt4 la +:+ ", " +:+ fmt4 lo) +:+ ")",
                  map_html, aqi_html +:+ sat_html +:+ climate_html))
    /\ (forall sat_html map_html cl e,
        get_satellite_radiation la lo (fmt4 la +:+ ", " +:+ fmt4 lo) today
          = Return sat_html ->
        new_client ".cache_climate" = Return cl ->
        weather_api cl climate_url la lo today = Raise e ->
        is_Exception e = true ->
        create_india_map (Some la) (Some lo) zoom tiles_label = Return map_html ->
        manual_update (Some la) (Some lo) zoom tiles_label =
          Return (Some la, Some lo,
                  "✅ Marker at (" +:+ (fmt4 la +:+ ", " +:+ fmt4 lo) +:+ ")",
                  map_html,
                  aqi_html +:+ sat_html +:+
                  ("<div style='color:red;padding:.5em;'>Climate data unavailable: "
                     +:+ str e +:+ "</div>")))
    /\ (forall e,
        get_satellite_radiation la lo (fmt4 la +:+ ", " +:+ fmt4 lo) today
          = Raise e ->
        manual_update (Some la) (Some lo) zoom tiles_label = Raise e).
Proof.
  intros W la lo zoom tiles_label aqi_html Hin Hair.
  assert (Hpage : forall sat_html climate_html map_html,
             get_satellite_radiation la lo (fmt4 la +:+ ", " +:+ fmt4 lo) today
               = Return sat_html ->
             get_climate_data la lo (fmt4 la +:+ ", " +:+ fmt4 lo) today
               = Return climate_html ->
             create_india_map (Some la) (Some lo) zoom tiles_label
               = Return map_html ->
             manual_update (Some la) (Some lo) zoom tiles_label =
               Return (Some la, Some lo,
                       "✅ Marker at (" +:+ (fmt4 la +:+ ", " +:+ fmt4 lo) +:+ ")",
                       map_html, aqi_html +:+ sat_html +:+ climate_html)).
  { intros sat_html climate_html map_html Hsat Hcl Hmap.
    unfold manual_update. rewrite Hin. cbn zeta.
    rewrite Hair, bind_Return, Hsat, bind_Return, Hcl, bind_Return.
    rewrite bind_Return. rewrite Hmap, bind_Return. reflexivity. }
  split; [exact Hpage|]. split.
  - intros sat_html map_html cl e Hsat Hcl Hapi He Hmap.
    apply Hpage; [exact Hsat| |exact Hmap].
    exact (get_climate_data_caught la lo _ today cl e Hcl Hapi He).
  - intros e Hsat. unfold manual_update. rewrite Hin. cbn zeta.
    rewrite Hair, bind_Return, Hsat. reflexivity.
Qed.

(** Nagpur, with every service answering, with the climate service
    down and with the satellite service down. *)
Lemma manual_update_page_witness :
  (exists climate_html,
     @manual_update online (Some 21) (Some 79) 5 "OpenStreetMap" =
       Return (Some 21, Some 79, "✅ Marker at (0.0000, 0.0000)",
               "<div style='border-radius:18px;box-shadow:0 4px 18px #8882;overflow:hidden;margin:1em 0;min-height:520px;max-width:100%;'>blue</div>",
               "Very Poor 0.0000, 0.0000" +:+ "sun 0.0000, 0.0000 2025-06-01"
                 +:+ climate_html)) /\
  @manual_update climate_down (Some 21) (Some 79) 5 "OpenStreetMap" =
    Return (Some 21, Some 79, "✅ Marker at (0.0000, 0.0000)",
            "<div style='border-radius:18px;box-shadow:0 4px 18px #8882;overflow:hidden;margin:1em 0;min-height:520px;max-width:100%;'>blue</div>",
            "Very Poor 0.0000, 0.0000" +:+ "sun 0.0000, 0.0000 2025-06-01"
              +:+ "<div style='color:red;padding:.5em;'>Climate data unavailable: Connection refused</div>") /\
  @manual_update satellite_down (Some 21) (Some 79) 5 "OpenStreetMap" = Raise down.
Proof.
  split; [|split].
  - eexists.
    apply (proj1 (manual_update_page online 21 79 5 "OpenStreetMap"
                    "Very Poor 0.0000, 0.0000" eq_refl eq_refl));
      reflexivity.
  - exact (proj1 (proj2 (manual_update_page climate_down 21 79 5 "OpenStreetMap"
                           "Very Poor 0.0000, 0.0000" eq_refl eq_refl))
             "sun 0.0000, 0.0000 2025-06-01" _ ".cache_climate" down
             eq_refl eq_refl eq_refl eq_refl eq_refl).
  - exact (proj2 (proj2 (manual_update_page satellite_down 21 79 5 "OpenStreetMap"
                           "Very Poor 0.0000, 0.0000" eq_refl eq_refl))
             down eq_refl).
Defined.

(* ================================================================= *)
(** ** The geocoding search *)

Lemma first_indian_skip {W : Collaborators} (pre rest : list geo_result) :
  (forall r, In r pre -> is_indian r = false) ->
  first_indian (pre ++ rest) = first_indian rest.
Proof.
  intros Hpre. induction pre as [|p pre IH]; [reflexivity|].
  simpl. rewrite (Hpre p (or_introl eq_refl)).
  apply IH. intros r Hin. apply Hpre. right. exact Hin.
Qed.

Lemma location_of_not_None {W : Collaborators} (res : geo_result) :
  (loc ← location_of res; Return (Some loc)) <> Return None.
Proof.
  destruct (location_of res) as [loc|e]; discriminate.
Qed.

(** The search takes the first candidate tagged "IN", whatever follows
    it: when its latitude, longitude and name are there it is the
    location returned, with the coordinates of that candidate; when one
    of them is missing the call raises [KeyError] for the first missing
    key among latitude, longitude, name, even if a complete Indian
    candidate comes later.  The loop returns [None] exactly when no
    candidate is tagged "IN". *)
Theorem first_indian_candidate :
  forall (W : Collaborators) (pre : list geo_result) (res : geo_result)
         (post : list geo_result),
    (forall r, In r pre -> is_indian r = false) ->
    is_indian res = true ->
    (forall lat lon name,
        res_latitude res = Some lat -> res_longitude res = Some lon ->
        res_name res = Some name ->
        first_indian (pre ++ res :: post) =
          Return (Some (FoundLocation lat lon (admin_of res)
                          (name +:+ " (" +:+ fmt4 lat +:+ ", "
                             +:+ fmt4 lon +:+ ")"))))
    /\ (res_latitude res = None ->
        first_indian (pre ++ res :: post) = Raise (KeyError "latitude"))
    /\ (forall lat, res_latitude res = Some lat -> res_longitude res = None ->
        first_indian (pre ++ res :: post) = Raise (KeyError "longitude"))
    /\ (forall lat lon,
        res_latitude res = Some lat -> res_longitude res = Some lon ->
        res_name res = None ->
        first_indian (pre ++ res :: post) = Raise (KeyError "name"))
    /\ first_indian (pre ++ res :: post) <> Return None
    /\ first_indian pre = Return None.
Proof.
  intros W pre res post Hpre Hres.
  rewrite (first_indian_skip pre (res :: post) Hpre).
  cbn [first_indian]. rewrite Hres. unfold location_of.
  split; [|split; [|split; [|split; [|split]]]].
  - intros lat lon name -> -> ->. reflexivity.
  - intros ->. reflexivity.
  - intros lat -> ->. reflexivity.
  - intros lat lon -> -> ->. reflexivity.
  - apply location_of_not_None.
  - rewrite <- (app_nil_r pre). apply (first_indian_skip pre [] Hpre).
Qed.

(** Springfield (US) is skipped and Nagpur is taken; its four admin
    fields hold a missing and an empty one, which the join leaves out. *)
Lemma first_indian_candidate_witness :
  @first_indian online ([springfield] ++ nagpur :: [port_blair_east]) =
    Return (Some (FoundLocation 21.15 79.09 "Maharashtra, Nagpur Urban"
                    "Nagpur (0.0000, 0.0000)")) /\
  @first_indian online [springfield] = Return None.
Proof.
  assert (Hpre : forall r, In r [springfield] -> is_indian r = false).
  { intros r [<-|[]]. reflexivity. }
  destruct (first_indian_candidate online [springfield] nagpur [port_blair_east]
              Hpre eq_refl) as [Hfound [_ [_ [_ [_ Hnone]]]]].
  split.
  - exact (Hfound 21.15 79.09 "Nagpur" eq_refl eq_refl eq_refl).
  - exact Hnone.
Defined.

(* ================================================================= *)
(** ** The callback of the search box *)

(** A name that is empty or shorter than three characters once stripped
    sends no request at all, whatever the geocoder would do: only the
    map is drawn, without marker, so no exception derived from
    [Exception] escapes, and the page returned clears the two coordinate
    fields and has an empty data panel.  A longer name whose search
    finds no Indian candidate gives the same page with the message
    "Not found/India", and a search that raises makes the callback
    raise. *)
Theorem search_and_set_location_nothing_found :
  forall (W : Collaborators) (G : Geocoding W) (name : string) (zoom : Z)
         (tiles_label : string),
    (too_short name = true ->
       search_and_set_location name zoom tiles_label =
         (map_html ← create_india_map None None zoom tiles_label;
          Return (None, None, "❌ Enter ≥3 chars", map_html, ""))
       /\ (forall e, search_and_set_location name zoom tiles_label = Raise e ->
                     is_Exception e = false)
       /\ (forall page,
             search_and_set_location name zoom tiles_label = Return page ->
             exists map_html,
               create_india_map None None zoom tiles_label = Return map_html /\
               page = (None, None, "❌ Enter ≥3 chars", map_html, "")))
    /\ (too_short name = false ->
        search_location_open_meteo (strip name) = Return None ->
        search_and_set_location name zoom tiles_label =
          (map_html ← create_india_map None None zoom tiles_label;
           Return (None, None, "❌ Not found/India", map_html, "")))
    /\ (forall e,
        too_short name = false ->
        search_location_open_meteo (strip name) = Raise e ->
        search_and_set_location name zoom tiles_label = Raise e).
Proof.
  intros W G name zoom tiles_label. unfold search_and_set_location.
  split; [|split].
  - intros ->. split; [reflexivity|].
    exact (map_then_page None None zoom tiles_label
             (fun map_html => (None, None, "❌ Enter ≥3 chars", map_html, ""))).
  - intros -> ->. reflexivity.
  - intros e -> ->. reflexivity.
Qed.

(** Two letters with a geocoder that is down, a town outside India, and
    a longer name with the geocoder down. *)
Lemma search_and_set_location_nothing_found_witness :
  @search_and_set_location online geocoder_down "Na" 5 "OpenStreetMap" =
    Return (None, None, "❌ Enter ≥3 chars",
            "<div style='border-radius:18px;box-shadow:0 4px 18px #8882;overflow:hidden;margin:1em 0;min-height:520px;max-width:100%;'></div>",
            "") /\
  @search_and_set_location online (geocoder [springfield]) "Springfield" 5
      "OpenStreetMap" =
    Return (None, None, "❌ Not found/India",
            "<div style='border-radius:18px;box-shadow:0 4px 18px #8882;overflow:hidden;margin:1em 0;min-height:520px;max-width:100%;'></div>",
            "") /\
  @search_and_set_location online geocoder_down "Nagpur" 5 "OpenStreetMap"
    = Raise down.
Proof.
  split; [|split].
  - rewrite (proj1 (proj1 (search_and_set_location_nothing_found online
                             geocoder_down "Na" 5 "OpenStreetMap") eq_refl)).
    reflexivity.
  - rewrite (proj1 (proj2 (search_and_set_location_nothing_found online
                             (geocoder [springfield]) "Springfield" 5
                             "OpenStreetMap")) eq_refl eq_refl).
    reflexivity.
  - exact (proj2 (proj2 (search_and_set_location_nothing_found online
                           geocoder_down "Nagpur" 5 "OpenStreetMap"))
             down eq_refl eq_refl).
Defined.

Lemma search_location_open_meteo_results {W : Collaborators} {G : Geocoding W}
    (location_name : string) (resp : http_response)
    (results : list geo_result) :
  geocode_get geocoding_url location_name = Return resp ->
  raise_for_status resp = Return tt ->
  json_results resp = Return results ->
  search_location_open_meteo location_name = first_indian results.
Proof.
  intros Hget Hstatus Hjson. unfold search_location_open_meteo.
  rewrite Hget, bind_Return, Hstatus, bind_Return, Hjson, bind_Return.
  reflexivity.
Qed.

(** When the geocoder answers and the first candidate tagged "IN" is
    complete, the callback sets the two fields to its coordinates and
    fetches the air-quality and the satellite panel for them, and only
    these two: there is no climate panel on this path, and the
    coordinates are not checked against the box of [is_within_india]
    before the fetch. *)
Theorem search_and_set_location_found :
  forall (W : Collaborators) (G : Geocoding W) (name : string) (zoom : Z)
         (tiles_label : string) (resp : http_response)
         (pre : list geo_result) (res : geo_result) (post : list geo_result)
         (lat lon : Q) (place display aqi_html sat_html map_html : string),
    too_short name = false ->
    geocode_get geocoding_url (strip name) = Return resp ->
    raise_for_status resp = Return tt ->
    json_results resp = Return (pre ++ res :: post) ->
    (forall r, In r pre -> is_indian r = false) ->
    is_indian res = true ->
    res_latitude res = Some lat -> res_longitude res = Some lon ->
    res_name res = Some place ->
    display = place +:+ " (" +:+ fmt4 lat +:+ ", " +:+ fmt4 lon +:+ ")" ->
    get_air_quality lat lon display today = Return aqi_html ->
    get_satellite_radiation lat lon display today = Return sat_html ->
    create_india_map (Some lat) (Some lon) zoom tiles_label = Return map_html ->
    search_and_set_location name zoom tiles_label =
      Return (Some lat, Some lon,
              "✅ <b>Found:</b> " +:+ display +:+ "<br><i>"
                +:+ admin_of res +:+ "</i>",
              map_html, aqi_html +:+ sat_html).
Proof.
  intros W G name zoom tiles_label resp pre res post lat lon place display
         aqi_html sat_html map_html
         Hlong Hget Hstatus Hjson Hpre Hres Hlat Hlon Hname -> Hair Hsat Hmap.
  unfold search_and_set_location. rewrite Hlong.
  rewrite (search_location_open_meteo_results _ resp _ Hget Hstatus Hjson).
  rewrite (first_indian_skip pre (res :: post) Hpre).
  cbn [first_indian]. rewrite Hres. unfold location_of.
  rewrite Hlat, Hlon, Hname. cbn [field]. rewrite !bind_Return.
  cbn [loc_lat loc_lon loc_display loc_admin].
  rewrite Hair, bind_Return, Hsat, bind_Return, Hmap, bind_Return.
  reflexivity.
Qed.

(** Campbell Bay, tagged "IN" at longitude 99, east of the box: both
    panels are fetched and the map shows the red marker. *)
Lemma search_and_set_location_found_witness :
  is_within_india 7 99 = false /\
  @search_and_set_location online
      (geocoder ([springfield] ++ port_blair_east :: [nagpur]))
      "Campbell" 5 "OpenStreetMap" =
    Return (Some 7, Some 99,
            "✅ <b>Found:</b> Campbell Bay (0.0000, 0.0000)<br><i>Andaman and Nicobar</i>",
            "<div style='border-radius:18px;box-shadow:0 4px 18px #8882;overflow:hidden;margin:1em 0;min-height:520px;max-width:100%;'>red</div>",
            "Very Poor Campbell Bay (0.0000, 0.0000)"
              +:+ "sun Campbell Bay (0.0000, 0.0000) 2025-06-01").
Proof.
  split; [reflexivity|].
  apply (search_and_set_location_found online
           (geocoder ([springfield] ++ port_blair_east :: [nagpur]))
           "Campbell" 5 "OpenStreetMap"
           (∅, [springfield] ++ port_blair_east :: [nagpur])
           [springfield] port_blair_east [nagpur] 7 99 "Campbell Bay"
           "Campbell Bay (0.0000, 0.0000)");
    try reflexivity.
  intros r [<-|[]]. reflexivity.
Defined.
